(** * Ingestion pipeline of [assessment.ipynb]: model and verified properties

    The notebook cell "Data Processing" defines [clean_cols], [row_hash],
    [csv_rows], [json_rows], [load_ckpt], [save_ckpt], [process] and
    [run_all].  This file embeds them and proves properties of the
    embedding.

    Conventions.
    - A Python [str] is a [string]; each character is a code point below
      256.  Comparison of strings is Python's: lexicographic on code points
      ([String.leb]).
    - A Python [dict] is an association list in insertion order with unique
      keys; [dict_set] is [d[k] = v].
    - A Python [set] is a [gset].
    - Python integers are [Z].
    - [json.loads], [json.dumps], [hashlib.sha1] and [pandas.read_csv] are
      library functions: they are parameters of the development.
    - The gzip stream of the part-file is buffered.  A device that fails
      makes a [gz.write] raise; the stream can then not be flushed, and
      [gz.close()] raises as well.  A failure that shows in [gz.close()]
      only, or in [os.replace] and [unlink], is not modelled. *)

From Stdlib Require Import ZArith Ascii String List Lia DecimalString DecimalZ Sorted.
From stdpp Require Import base gmap sets list strings.

Local Open Scope string_scope.
#[local] Set Warnings "-clear-no-such-hyp".

(** ** Python strings *)

Module PyStr.

Definition is_dot (c : ascii) : bool := Ascii.eqb c ".".

(** [s.split(".")]: always a non-empty list. *)
Fixpoint split_dot (s : string) : list string :=
  match s with
  | EmptyString => [EmptyString]
  | String c s' =>
      if is_dot c then EmptyString :: split_dot s'
      else match split_dot s' with
           | h :: t => String c h :: t
           | [] => [String c EmptyString]
           end
  end.

(** [str.isspace] on one code point below 256. *)
Definition is_space (c : ascii) : bool :=
  let n := nat_of_ascii c in
  ((9 <=? n)%nat && (n <=? 13)%nat) || ((28 <=? n)%nat && (n <=? 32)%nat)
  || (n =? 133)%nat || (n =? 160)%nat.

Fixpoint lstrip (s : string) : string :=
  match s with
  | EmptyString => EmptyString
  | String c s' => if is_space c then lstrip s' else s
  end.

Fixpoint rstrip (s : string) : string :=
  match s with
  | EmptyString => EmptyString
  | String c s' =>
      match rstrip s' with
      | EmptyString => if is_space c then EmptyString else String c EmptyString
      | t => String c t
      end
  end.

(** [s.strip()] *)
Definition strip (s : string) : string := rstrip (lstrip s).

(** Truth value of a string: [bool(s)]. *)
Definition truthy (s : string) : bool :=
  match s with EmptyString => false | _ => true end.

(** [str.lower] on one code point below 256. *)
Definition lower_char (c : ascii) : ascii :=
  let n := nat_of_ascii c in
  if ((65 <=? n)%nat && (n <=? 90)%nat)
     || ((192 <=? n)%nat && (n <=? 222)%nat && negb (n =? 215)%nat)
  then ascii_of_nat (n + 32) else c.

Fixpoint lower (s : string) : string :=
  match s with
  | EmptyString => EmptyString
  | String c s' => String (lower_char c) (lower s')
  end.

(** [s.rfind(".")], [None] for [-1]. *)
Fixpoint rfind_dot (s : string) : option nat :=
  match s with
  | EmptyString => None
  | String c s' =>
      match rfind_dot s' with
      | Some i => Some (S i)
      | None => if is_dot c then Some 0%nat else None
      end
  end.

Fixpoint drop (n : nat) (s : string) : string :=
  match n, s with
  | O, _ => s
  | S n', String _ s' => drop n' s'
  | S _, EmptyString => EmptyString
  end.

(** [PurePath.suffix] applied to a file name:
    [i = name.rfind('.'); name[i:] if 0 < i < len(name) - 1 else ''] *)
Definition suffix (name : string) : string :=
  match rfind_dot name with
  | Some i =>
      if (0 <? i)%nat && (S i <? String.length name)%nat
      then drop i name else EmptyString
  | None => EmptyString
  end.

(** [needle in hay] for two strings: substring test. *)
Fixpoint contains (hay needle : string) : bool :=
  String.prefix needle hay ||
  match hay with
  | EmptyString => false
  | String _ hay' => contains hay' needle
  end.

Definition chars (s : string) : list ascii := list_ascii_of_string s.

(** No ["."] occurs in [s]. *)
Definition dot_free (s : string) : Prop := "."%char ∉ chars s.

End PyStr.

(** ** Python dicts as insertion-ordered association lists *)

Section Dict.
Context {V : Type}.

(** [d[k] = v]: an existing key keeps its position, a new key goes last. *)
Fixpoint dict_set (k : string) (v : V) (d : list (string * V)) : list (string * V) :=
  match d with
  | [] => [(k, v)]
  | (k', v') :: d' =>
      if String.eqb k' k then (k', v) :: d' else (k', v') :: dict_set k v d'
  end.

Definition keys (d : list (string * V)) : list string := map fst d.

(** [clean_cols]:
<<
    out = {}
    for k, v in rec.items():
        out[k.split(".")[-1]] = v
    return out
>> *)
Definition norm_key (k : string) : string :=
  List.last (PyStr.split_dot k) EmptyString.

Definition clean_cols (rec : list (string * V)) : list (string * V) :=
  fold_left (fun out kv => dict_set (norm_key (fst kv)) (snd kv) out) rec [].

End Dict.

(** ** Data model *)

(** A JSON value as [json.loads] returns it (a float is kept as its literal). *)
#[warnings="-register-all"]
Inductive json : Type :=
  | JNull
  | JBool (b : bool)
  | JInt (z : Z)
  | JFloat (lit : string)
  | JStr (s : string)
  | JArr (l : list json)
  | JObj (d : list (string * json)).

(** One record: the dict that a reader yields. *)
Definition record : Type := list (string * json).

(** Exceptions that the pipeline meets. *)
Inductive exn : Type :=
  | AttributeError      (* [rec.items()] on a JSON value that is no dict *)
  | ParserError         (* raised by [pd.read_csv] while iterating *)
  | OSError             (* raised by [gzip.open], [gz.write], [gz.close] *)
  | UnboundLocalError.  (* [gz.close()] in the handler when [gz] was never bound *)

(** What iterating [pd.read_csv(path, chunksize=50_000)] gives: the chunks,
    each already turned into records by [to_dict(orient="records")], and
    whether the iteration ends by raising. *)
Record csv_parse : Type := {
  csv_chunks : list (list record);
  csv_error : bool
}.

(** The library functions that the pipeline calls. *)
Record library : Type := {
  (** [json.loads(line)]: the value it returns, [None] when it raises
      [json.JSONDecodeError].  A line on which it raises anything else
      ([RecursionError] on very deep nesting) is outside the model. *)
  json_loads : string -> option json;
  (** [json.dumps(rec, sort_keys=b)] *)
  json_dumps : bool -> record -> string;
  (** [sha1(s.encode()).digest()] *)
  sha1 : string -> string;
  (** [pd.read_csv(path, chunksize=50_000)] on the text of a file. *)
  read_csv : list string -> csv_parse
}.

(** A source file of a dataset folder: its name and its text, as the lines
    that [for line in fh] yields. *)
Record src_file : Type := {
  name : string;
  lines : list string
}.

(** What a reader does, in order, while the [for rec in reader] loop of
    [process] pulls from it, followed by what the loop over the files does
    between two readers.  The readers are generators: they run interleaved
    with the loop body, and they never look at the state they mutate, so
    each is the list of its steps. *)
Inductive event : Type :=
  | EYield (r : record)       (* [for c in r: cols.add(c)] then [yield r] *)
  | EBadJson (path : string)  (* [stats["bad_json"] += 1; logging.warning(..)] *)
  | ERaise (e : exn)          (* the reader raises *)
  | ESkipped (src : string)   (* [logging.info("skipped %s", src); continue] *)
  | ESaveCkpt (src : string). (* [save_ckpt(ckpt, src.name, stats["rows"])] *)

Inductive log_entry : Type :=
  | LogSkipped (src : string)
  | LogDuplicate (ds : string)
  | LogNewColumns (ds : string) (new_cols : list string)
  | LogBadJson (path : string)
  | LogException (ds : string) (e : exn).

Inductive print_entry : Type :=
  | PrintMissing (ds : string)
  | PrintSummary (ds : string) (rows bad_json : Z) (dup_seen : bool) (columns : nat)
  | PrintError (ds : string) (e : exn)
  | PrintLogFile.

(** The local state of one call of [process]: the [stats] dict, the two
    sets, the text that the gzip stream has accepted (after the part-file's
    own text when the stream was opened for appending), the checkpoint file
    and the log.  The stream is buffered: its text is the text of the
    part-file once the stream has been closed without error.  [cols_seen] is
    the one set object that [process] creates and hands to the readers as
    [cols]. *)
Record run_state : Type := {
  rows : Z;
  bad_json : Z;
  dup_seen : bool;
  cols_seen : gset string;
  hashes : gset string;
  gz : list string;
  gz_open : bool;
  writes_left : option nat;
  ckpt : option (string * Z);
  log : list log_entry
}.

Inductive outcome : Type :=
  | Ok (st : run_state)
  | Exc (e : exn) (st : run_state).

Definition state_of (o : outcome) : run_state :=
  match o with Ok st => st | Exc _ st => st end.

(** The files of one dataset: the folder [RAW_DIR/ds] ([None] when it is no
    directory), and under [OUT_DIR] the checkpoint (first line and row
    count), the part-file and the final artifact (their decompressed
    lines).  [part_openable] tells whether [gzip.open] on the part-file
    succeeds, [write_limit] after how many [gz.write] calls the next one
    raises ([None]: no write fails, the flush of [gz.close()] included), and
    [flushed] how many lines of the run the buffered stream has passed on
    to the part-file when that happens. *)
Record dataset_fs : Type := {
  raw : option (list src_file);
  ckpt_file : option (string * Z);
  part_file : option (list string);
  final_file : option (list string);
  part_openable : bool;
  write_limit : option nat;
  flushed : nat
}.

Record world : Type := {
  fs : string -> dataset_fs;
  streams : gset string;      (* datasets whose gzip stream is open *)
  logf : list log_entry;
  console : list print_entry
}.

Inductive result : Type :=
  | Returned (w : world)
  | Raised (e : exn) (w : world).

Definition world_of (r : result) : world :=
  match r with Returned w => w | Raised _ w => w end.

Definition upd (ds : string) (d : dataset_fs) (f : string -> dataset_fs)
  : string -> dataset_fs :=
  fun x => if String.eqb x ds then d else f x.

(** ** The pipeline *)

Section Pipeline.

Variable py : library.

(** [row_hash]:
<<
    s = json.dumps(rec, sort_keys=True)
    return sha1(s.encode()).digest()
>> *)
Definition row_hash (rec : record) : string := sha1 py (json_dumps py true rec).

(** [csv_rows(path, cols)]: every row of every chunk is cleaned, its
    keys are added to [cols] and it is yielded; a failure of the parser
    ends the iteration by an exception. *)
Definition csv_rows (fh : list string) : list event :=
  flat_map (fun chunk => map (fun r => EYield (clean_cols r)) chunk)
           (csv_chunks (read_csv py fh))
  ++ (if csv_error (read_csv py fh) then [ERaise ParserError] else []).

(** [json_rows(path, cols, stats)]:
<<
    for line in fh:
        line = line.strip()
        if not line:
            continue
        try:
            r = clean_cols(json.loads(line))
            for c in r:
                cols.add(c)
            yield r
        except json.JSONDecodeError:
            stats["bad_json"] += 1
            logging.warning("bad json in %s", path)
>>
    [clean_cols] calls [.items()] on what [json.loads] returns: on a
    value that is no dict this raises [AttributeError], which the
    [except] clause does not catch. *)
Fixpoint json_rows (path : string) (fh : list string) : list event :=
  match fh with
  | [] => []
  | line :: fh' =>
      let line := PyStr.strip line in
      if negb (PyStr.truthy line) then json_rows path fh'
      else match json_loads py line with
           | None => EBadJson path :: json_rows path fh'
           | Some (JObj d) => EYield (clean_cols d) :: json_rows path fh'
           | Some _ => [ERaise AttributeError]
           end
  end.

(** [load_ckpt]:
<<
    if cp.exists():
        with cp.open() as f:
            name = f.readline().strip()
            rows = int(f.readline().strip() or 0)
            return name, rows
    return None, 0
>>
    The checkpoint file is kept as the text of its first line and the
    integer of its second line ([0] when that line is empty); a second
    line on which [int] raises is outside the model. *)
Definition load_ckpt (cp : option (string * Z)) : option string * Z :=
  match cp with
  | Some (line1, n) => (Some (PyStr.strip line1), n)
  | None => (None, 0%Z)
  end.

(** ** Updates of the run state *)

Definition set_dup (st : run_state) : run_state :=
  {| rows := rows st; bad_json := bad_json st; dup_seen := true;
     cols_seen := cols_seen st; hashes := hashes st; gz := gz st;
     gz_open := gz_open st; writes_left := writes_left st;
     ckpt := ckpt st; log := log st |}.

Definition add_hash (h : string) (st : run_state) : run_state :=
  {| rows := rows st; bad_json := bad_json st; dup_seen := dup_seen st;
     cols_seen := cols_seen st; hashes := {[h]} ∪ hashes st; gz := gz st;
     gz_open := gz_open st; writes_left := writes_left st;
     ckpt := ckpt st; log := log st |}.

Definition set_cols (cs : gset string) (st : run_state) : run_state :=
  {| rows := rows st; bad_json := bad_json st; dup_seen := dup_seen st;
     cols_seen := cs; hashes := hashes st; gz := gz st;
     gz_open := gz_open st; writes_left := writes_left st;
     ckpt := ckpt st; log := log st |}.

Definition add_log (e : log_entry) (st : run_state) : run_state :=
  {| rows := rows st; bad_json := bad_json st; dup_seen := dup_seen st;
     cols_seen := cols_seen st; hashes := hashes st; gz := gz st;
     gz_open := gz_open st; writes_left := writes_left st;
     ckpt := ckpt st; log := log st ++ [e] |}.

Definition incr_rows (st : run_state) : run_state :=
  {| rows := (rows st + 1)%Z; bad_json := bad_json st; dup_seen := dup_seen st;
     cols_seen := cols_seen st; hashes := hashes st; gz := gz st;
     gz_open := gz_open st; writes_left := writes_left st;
     ckpt := ckpt st; log := log st |}.

Definition incr_bad_json (st : run_state) : run_state :=
  {| rows := rows st; bad_json := (bad_json st + 1)%Z; dup_seen := dup_seen st;
     cols_seen := cols_seen st; hashes := hashes st; gz := gz st;
     gz_open := gz_open st; writes_left := writes_left st;
     ckpt := ckpt st; log := log st |}.

(** [save_ckpt(cp, filename, rows)]: overwrites the checkpoint with
    [f"{filename}\n{rows}\n"]. *)
Definition save_ckpt (filename : string) (n : Z) (st : run_state) : run_state :=
  {| rows := rows st; bad_json := bad_json st; dup_seen := dup_seen st;
     cols_seen := cols_seen st; hashes := hashes st; gz := gz st;
     gz_open := gz_open st; writes_left := writes_left st;
     ckpt := Some (filename, n); log := log st |}.

(** [gz.close()], as far as the state of the run goes: the stream ends
    closed, also when the call raises. *)
Definition gz_close (st : run_state) : run_state :=
  {| rows := rows st; bad_json := bad_json st; dup_seen := dup_seen st;
     cols_seen := cols_seen st; hashes := hashes st; gz := gz st;
     gz_open := false; writes_left := writes_left st;
     ckpt := ckpt st; log := log st |}.

(** [gz.write(text)]: the stream accepts the text; [None] when the
    write raises. *)
Definition gz_write (text : string) (st : run_state) : option run_state :=
  match writes_left st with
  | Some O => None
  | Some (S n) =>
      Some {| rows := rows st; bad_json := bad_json st; dup_seen := dup_seen st;
              cols_seen := cols_seen st; hashes := hashes st;
              gz := gz st ++ [text];
              gz_open := gz_open st; writes_left := Some n;
              ckpt := ckpt st; log := log st |}
  | None =>
      Some {| rows := rows st; bad_json := bad_json st; dup_seen := dup_seen st;
              cols_seen := cols_seen st; hashes := hashes st;
              gz := gz st ++ [text];
              gz_open := gz_open st; writes_left := None;
              ckpt := ckpt st; log := log st |}
  end.

(** [for c in r: cols.add(c)], in a reader; [cols] is [cols_seen]. *)
Definition add_cols (r : record) (st : run_state) : run_state :=
  set_cols (fold_left (fun s c => {[c]} ∪ s) (keys r) (cols_seen st)) st.

(** The duplicate check of the loop body:
<<
    h = row_hash(rec)
    if not stats["dup_seen"] and h in hashes:
        stats["dup_seen"] = True
        logging.info("duplicate rows detected in %s", ds)
    hashes.add(h)
>> *)
Definition note_dup (ds : string) (rec : record) (st : run_state) : run_state :=
  let h := row_hash rec in
  let st1 :=
    if negb (dup_seen st) && bool_decide (h ∈ hashes st)
    then add_log (LogDuplicate ds) (set_dup st) else st in
  add_hash h st1.

(** The schema check of the loop body:
<<
    new_cols = []
    for col in rec:
        if col not in cols_seen:
            new_cols.append(col)
            cols_seen.add(col)
    if new_cols:
        logging.info("new columns in %s: %s", ds, ", ".join(new_cols))
>> *)
Fixpoint scan_cols (cs : list string) (seen : gset string)
  : list string * gset string :=
  match cs with
  | [] => ([], seen)
  | col :: cs' =>
      if bool_decide (col ∈ seen) then scan_cols cs' seen
      else let '(new_cols, seen') := scan_cols cs' ({[col]} ∪ seen) in
           (col :: new_cols, seen')
  end.

Definition note_cols (ds : string) (rec : record) (st : run_state) : run_state :=
  let '(new_cols, seen') := scan_cols (keys rec) (cols_seen st) in
  let st1 := set_cols seen' st in
  match new_cols with
  | [] => st1
  | _ :: _ => add_log (LogNewColumns ds new_cols) st1
  end.

(** The body of [for rec in reader], ending with
<<
    gz.write(json.dumps(rec) + "\n")
    stats["rows"] += 1
>> *)
Definition body (ds : string) (rec : record) (st : run_state) : outcome :=
  let st1 := note_cols ds rec (note_dup ds rec st) in
  match gz_write (json_dumps py false rec) st1 with
  | Some st2 => Ok (incr_rows st2)
  | None => Exc OSError st1
  end.

(** One step of the two nested loops of [process]. *)
Definition step (ds : string) (ev : event) (st : run_state) : outcome :=
  match ev with
  | EYield r => body ds r (add_cols r st)
  | EBadJson path => Ok (add_log (LogBadJson path) (incr_bad_json st))
  | ERaise e => Exc e st
  | ESkipped src => Ok (add_log (LogSkipped src) st)
  | ESaveCkpt src => Ok (save_ckpt src (rows st) st)
  end.

(** The steps in order, up to the first exception. *)
Fixpoint for_events (ds : string) (evs : list event) (st : run_state) : outcome :=
  match evs with
  | [] => Ok st
  | ev :: evs' =>
      match step ds ev st with
      | Ok st' => for_events ds evs' st'
      | Exc e st' => Exc e st'
      end
  end.

(** [sorted(folder.iterdir())]: paths of one folder compare by name. *)
Fixpoint insert_by_name (f : src_file) (l : list src_file) : list src_file :=
  match l with
  | [] => [f]
  | g :: l' =>
      if String.leb (name f) (name g) then f :: l
      else g :: insert_by_name f l'
  end.

Definition sorted (folder : list src_file) : list src_file :=
  fold_right insert_by_name [] folder.

(** [last_done and src.name <= last_done] *)
Definition skip_by_name (last_done : option string) (n : string) : bool :=
  match last_done with
  | Some l => PyStr.truthy l && String.leb n l
  | None => false
  end.

(** The choice of the reader:
<<
    ext = src.suffix.lower()
    if ext == ".csv": ...
    elif ext in (".json"): ...
    else: ...
>>
    [(".json")] is a string, not a tuple: the test is a substring test. *)
Inductive reader_kind : Type := CsvReader | JsonReader | NoReader.

Definition reader_for (n : string) : reader_kind :=
  let ext := PyStr.lower (PyStr.suffix n) in
  if String.eqb ext ".csv" then CsvReader
  else if PyStr.contains ".json" ext then JsonReader
  else NoReader.

(** One round of [for src in sorted(folder.iterdir())]. *)
Definition file_events (last_done : option string) (src : src_file) : list event :=
  if skip_by_name last_done (name src) then []
  else match reader_for (name src) with
       | CsvReader => csv_rows (lines src) ++ [ESaveCkpt (name src)]
       | JsonReader => json_rows (name src) (lines src) ++ [ESaveCkpt (name src)]
       | NoReader => [ESkipped (name src)]
       end.

Definition dataset_events (last_done : option string) (folder : list src_file)
  : list event :=
  flat_map (file_events last_done) (sorted folder).

(** The state at the entry of the [try] block, once [gzip.open] has
    returned: [mode = "at" if rows_done else "wt"]. *)
Definition init_state (d : dataset_fs) (w : world) (rows_done : Z) : run_state :=
  {| rows := rows_done; bad_json := 0%Z; dup_seen := false;
     cols_seen := ∅; hashes := ∅;
     gz := if negb (rows_done =? 0)%Z then default [] (part_file d) else [];
     gz_open := true; writes_left := write_limit d;
     ckpt := ckpt_file d; log := logf w |}.

Definition stream_set (ds : string) (st : run_state) (w : world) : gset string :=
  if gz_open st then {[ds]} ∪ streams w else streams w ∖ {[ds]}.

(** The end of the [try] block:
<<
    gz.close()
    os.replace(part, final)
    ckpt.unlink(missing_ok=True)
    print(f"{ds}: rows=... bad_json=... dup_seen=... columns={len(cols_seen)}")
>>
    All writes of the loop have succeeded here.  A failure of these three
    calls themselves (a flush that fails only in [gz.close()], a rename or
    an unlink that the file system refuses) is outside the model. *)
Definition finalize (ds : string) (d : dataset_fs) (w : world) (st : run_state)
  : world :=
  let st' := gz_close st in
  {| fs := upd ds {| raw := raw d; ckpt_file := None; part_file := None;
                     final_file := Some (gz st');
                     part_openable := part_openable d;
                     write_limit := write_limit d;
                     flushed := flushed d |} (fs w);
     streams := stream_set ds st' w;
     logf := log st';
     console := console w ++
       [PrintSummary ds (rows st') (bad_json st') (dup_seen st')
                     (size (cols_seen st'))] |}.

(** The handler:
<<
    except Exception as e:
        gz.close()
        logging.exception("pipeline stopped in %s: %s", ds, e)
        print("error processing", ds, "-", e)
        return
>>
    [handler] is the handler when [gz.close()] returns: the stream flushes
    all the text it has accepted. *)
Definition handler (ds : string) (d : dataset_fs) (w : world) (e : exn)
    (st : run_state) : world :=
  let st' := gz_close st in
  {| fs := upd ds {| raw := raw d; ckpt_file := ckpt st';
                     part_file := Some (gz st');
                     final_file := final_file d;
                     part_openable := part_openable d;
                     write_limit := write_limit d;
                     flushed := flushed d |} (fs w);
     streams := stream_set ds st' w;
     logf := log st' ++ [LogException ds e];
     console := console w ++ [PrintError ds e] |}.

(** Inside the [try] block [OSError] comes from [gz.write] alone.  The
    stream then still holds the text that it could not pass on: the flush
    of [gz.close()] fails in the same way, and the call raises after it has
    closed the stream. *)
Definition stream_broken (e : exn) : bool :=
  match e with OSError => true | _ => false end.

(** The handler when its [gz.close()] raises: nothing is logged or
    printed, and the exception leaves [process].  The part-file holds what
    it held when the stream was opened ([n0] lines, none in mode "wt")
    and the lines that the stream had passed on. *)
Definition handler_raises (ds : string) (d : dataset_fs) (w : world)
    (n0 : nat) (st : run_state) : world :=
  let st' := gz_close st in
  {| fs := upd ds {| raw := raw d; ckpt_file := ckpt st';
                     part_file := Some (take (n0 + flushed d) (gz st'));
                     final_file := final_file d;
                     part_openable := part_openable d;
                     write_limit := write_limit d;
                     flushed := flushed d |} (fs w);
     streams := stream_set ds st' w;
     logf := log st';
     console := console w |}.

Definition print (p : print_entry) (w : world) : world :=
  {| fs := fs w; streams := streams w; logf := logf w;
     console := console w ++ [p] |}.

(** [process(ds)].  When [gzip.open] raises, the handler runs with [gz]
    unbound: its first statement raises [UnboundLocalError], which leaves
    [process].  When [gz.write] raises, the first statement of the handler
    raises as well ([stream_broken]). *)
Definition process (ds : string) (w : world) : result :=
  let d := fs w ds in
  match raw d with
  | None => Returned (print (PrintMissing ds) w)
  | Some folder =>
      let '(last_done, rows_done) := load_ckpt (ckpt_file d) in
      if negb (part_openable d) then Raised UnboundLocalError w
      else
        let st0 := init_state d w rows_done in
        match for_events ds (dataset_events last_done folder) st0 with
        | Ok st => Returned (finalize ds d w st)
        | Exc e st =>
            if stream_broken e
            then Raised OSError (handler_raises ds d w (length (gz st0)) st)
            else Returned (handler ds d w e st)
        end
  end.

(** [run_all]:
<<
    for d in ("orders", "playlist_track", "track_facts", "tracks"):
        process(d)
    logging.shutdown()
    print("log file:", log_path)
>> *)
Definition datasets : list string :=
  ["orders"; "playlist_track"; "track_facts"; "tracks"].

Fixpoint process_each (dss : list string) (w : world) : result :=
  match dss with
  | [] => Returned w
  | d :: dss' =>
      match process d w with
      | Returned w' => process_each dss' w'
      | Raised e w' => Raised e w'
      end
  end.

Definition run_all (w : world) : result :=
  match process_each datasets w with
  | Returned w' => Returned (print PrintLogFile w')
  | Raised e w' => Raised e w'
  end.

End Pipeline.

(** ** Observations on runs, used to state the properties *)

(** The records that a list of steps yields, in order. *)
Definition yields (evs : list event) : list record :=
  omap (λ ev, match ev with EYield r => Some r | _ => None end) evs.

(** The number of lines counted as malformed. *)
Definition is_bad_json (ev : event) : bool :=
  match ev with EBadJson _ => true | _ => false end.

Definition bad_count (evs : list event) : nat :=
  length (List.filter is_bad_json evs).

(** No reader raises. *)
Definition no_raise (evs : list event) : Prop :=
  ∀ e, ERaise e ∉ evs.

(** The names of all columns of a list of records. *)
Definition cols_of (rs : list record) : gset string :=
  ⋃ (list_to_set ∘ keys <$> rs).

Definition is_new_columns (e : log_entry) : bool :=
  match e with LogNewColumns _ _ => true | _ => false end.

Section Observations.

Variable py : library.

(** The four cases of a line of a line-JSON file. *)
Inductive line_class : Type :=
  | Blank                (* empty once stripped *)
  | Malformed            (* [json.loads] raises [JSONDecodeError] *)
  | Object (d : record)  (* [json.loads] returns a dict *)
  | NotObject.           (* [json.loads] returns another value *)

Definition classify (line : string) : line_class :=
  match PyStr.strip line with
  | EmptyString => Blank
  | s => match json_loads py s with
         | None => Malformed
         | Some (JObj d) => Object d
         | Some _ => NotObject
         end
  end.

Definition is_malformed (line : string) : bool :=
  match classify line with Malformed => true | _ => false end.

Definition is_not_object (line : string) : bool :=
  match classify line with NotObject => true | _ => false end.

(** The dicts that the lines of a line-JSON file decode to. *)
Definition objects (fh : list string) : list record :=
  omap (λ line, match classify line with Object d => Some d | _ => None end) fh.

(** The rows that the parser of delimited files returns. *)
Definition csv_records (fh : list string) : list record :=
  concat (csv_chunks (read_csv py fh)).

(** The records successfully parsed from a source file, before their
    keys are normalized; none for a file that has no reader. *)
Definition parsed (src : src_file) : list record :=
  match reader_for (name src) with
  | CsvReader => csv_records (lines src)
  | JsonReader => objects (lines src)
  | NoReader => []
  end.

(** A source file that is read without an exception. *)
Definition readable (src : src_file) : Prop :=
  match reader_for (name src) with
  | CsvReader => csv_error (read_csv py (lines src)) = false
  | JsonReader => ∀ line, line ∈ lines src → is_not_object line = false
  | NoReader => True
  end.

(** The files that a run resumed after [last_done] reads: those whose
    name is strictly greater. *)
Definition after (last_done : string) (folder : list src_file) : list src_file :=
  List.filter (λ src, String.ltb last_done (name src)) folder.

End Observations.

(** ** Sample library functions and sample files

    Concrete functions in place of the four library functions, and small
    folders, on which the pipeline is evaluated. *)

Module Sample.

Definition q : string := String (ascii_of_nat 34) EmptyString.
Definition nl : string := String (ascii_of_nat 10) EmptyString.

Fixpoint join (sep : string) (l : list string) : string :=
  match l with
  | [] => EmptyString
  | [x] => x
  | x :: l' => x ++ sep ++ join sep l'
  end.

Fixpoint insert_key (kv : string * json) (d : record) : record :=
  match d with
  | [] => [kv]
  | kv' :: d' =>
      if String.leb (fst kv) (fst kv') then kv :: d else kv' :: insert_key kv d'
  end.

Definition sort_keys (d : record) : record := fold_right insert_key [] d.

(** [sort_keys=True]: the keys of every dict, at any depth, in order. *)
Fixpoint sort_all (v : json) : json :=
  match v with
  | JArr l => JArr (map sort_all l)
  | JObj d =>
      JObj (sort_keys (map (fun kv => match kv with
                                      | (k, v') => (k, sort_all v')
                                      end) d))
  | _ => v
  end.

(** The text of a JSON value, as [json.dumps] writes integers, booleans,
    [null], plain strings, lists and dicts. *)
Fixpoint render (v : json) : string :=
  match v with
  | JNull => "null"
  | JBool true => "true"
  | JBool false => "false"
  | JInt z => NilZero.string_of_int (Z.to_int z)
  | JFloat lit => lit
  | JStr s => q ++ s ++ q
  | JArr l => "[" ++ join ", " (map render l) ++ "]"
  | JObj d =>
      "{" ++ join ", "
               (map (fun kv => match kv with
                               | (k, v') => q ++ k ++ q ++ ": " ++ render v'
                               end) d) ++ "}"
  end.

Definition dumps (sorted : bool) (rec : record) : string :=
  render (if sorted then sort_all (JObj rec) else JObj rec).

(** An injective stand-in for the digest. *)
Definition digest (s : string) : string := s.

(** Lines of the sample JSON files. *)
Definition line_x1 : string := "{" ++ q ++ "a.x" ++ q ++ ": 1}" ++ nl.
Definition line_x2 : string := "{" ++ q ++ "b.x" ++ q ++ ": 2}" ++ nl.
Definition line_y3 : string := "{" ++ q ++ "y" ++ q ++ ": 3}" ++ nl.
Definition line_list : string := "[1]" ++ nl.
Definition line_bad1 : string := "{" ++ q ++ "y" ++ q ++ ": " ++ nl.
Definition line_bad2 : string := "oops" ++ nl.
Definition line_blank : string := "  " ++ nl.

(** [json.loads] on the stripped sample lines; any other text counts as
    not decodable. *)
Definition loads (s : string) : option json :=
  if String.eqb s (PyStr.strip line_x1) then Some (JObj [("a.x", JInt 1)])
  else if String.eqb s (PyStr.strip line_x2) then Some (JObj [("b.x", JInt 2)])
  else if String.eqb s (PyStr.strip line_y3) then Some (JObj [("y", JInt 3)])
  else if String.eqb s (PyStr.strip line_list) then Some (JArr [JInt 1])
  else None.

Fixpoint split_comma (s : string) : list string :=
  match s with
  | EmptyString => [EmptyString]
  | String c s' =>
      if Ascii.eqb c "," then EmptyString :: split_comma s'
      else match split_comma s' with
           | h :: t => String c h :: t
           | [] => [String c EmptyString]
           end
  end.

Fixpoint zip_fill (cols cells : list string) : record :=
  match cols, cells with
  | [], _ => []
  | c :: cols', [] => (c, JFloat "NaN") :: zip_fill cols' []
  | c :: cols', x :: cells' => (c, JStr x) :: zip_fill cols' cells'
  end.

(** A small [read_csv]: the first line is the header, every cell is
    text, a short row is filled with [NaN], a row with more cells than
    the header makes the parser raise, and the rows form one chunk. *)
Definition parse_csv (fh : list string) : csv_parse :=
  match fh with
  | [] => {| csv_chunks := []; csv_error := true |}
  | header :: body =>
      let cols := split_comma (PyStr.strip header) in
      let cells := map (fun l => split_comma (PyStr.strip l)) body in
      if forallb (fun r => (length r <=? length cols)%nat) cells
      then {| csv_chunks := [map (zip_fill cols) cells]; csv_error := false |}
      else {| csv_chunks := []; csv_error := true |}
  end.

Definition py : library :=
  {| json_loads := loads; json_dumps := dumps; sha1 := digest;
     read_csv := parse_csv |}.

Definition empty_fs : dataset_fs :=
  {| raw := None; ckpt_file := None; part_file := None; final_file := None;
     part_openable := true; write_limit := None; flushed := 0 |}.

Definition folder_fs (folder : list src_file) : dataset_fs :=
  {| raw := Some folder; ckpt_file := None; part_file := None;
     final_file := None; part_openable := true; write_limit := None;
     flushed := 0 |}.

Definition world_with (ds : string) (d : dataset_fs) : world :=
  {| fs := upd ds d (fun _ => empty_fs); streams := ∅; logf := [];
     console := [] |}.

(** The state at the start of a run without checkpoint. *)
Definition fresh : run_state := init_state empty_fs (world_with "tracks" empty_fs) 0.

(** A line-JSON file with three objects and two malformed lines. *)
Definition three_two : src_file :=
  {| name := "t.json";
     lines := [line_x1; line_bad1; line_x2; line_bad2; line_y3] |}.

(** The pipeline with the sample library functions. *)
Definition run (ds : string) (w : world) : result :=
  process py ds w.

Definition run_everything (w : world) : result :=
  run_all py w.

Definition with_raw (folder : list src_file) (d : dataset_fs) : dataset_fs :=
  {| raw := Some folder; ckpt_file := ckpt_file d; part_file := part_file d;
     final_file := final_file d; part_openable := part_openable d;
     write_limit := write_limit d; flushed := flushed d |}.

Definition with_fs (ds : string) (d : dataset_fs) (w : world) : world :=
  {| fs := upd ds d (fs w); streams := streams w; logf := logf w;
     console := console w |}.

(** A folder whose second file holds a line that is a JSON list. *)
Definition broken_folder : list src_file :=
  [ {| name := "b.json"; lines := [line_y3; line_list; line_x2] |};
    {| name := "a.json"; lines := [line_x1] |} ].

(** The same folder once the offending line is removed. *)
Definition repaired_folder : list src_file :=
  [ {| name := "b.json"; lines := [line_y3; line_x2] |};
    {| name := "a.json"; lines := [line_x1] |} ].

Definition first_run : world := world_with "tracks" (folder_fs broken_folder).

(** The files as the failed first run leaves them. *)
Definition after_failure : world := world_of (run "tracks" first_run).

(** The second run starts from these files, with the folder repaired. *)
Definition second_run : world :=
  with_fs "tracks" (with_raw repaired_folder (fs after_failure "tracks"))
          after_failure.

(** A folder with one file of one record. *)
Definition one_record : world :=
  world_with "tracks" (folder_fs [ {| name := "t.json"; lines := [line_y3] |} ]).

(** Two datasets with a folder each; the part-file of the first one
    cannot be opened. *)
Definition unwritable_orders : world :=
  with_fs "orders"
    {| raw := Some [ {| name := "o.json"; lines := [line_x1] |} ];
       ckpt_file := None; part_file := None; final_file := None;
       part_openable := false; write_limit := None; flushed := 0 |}
    one_record.


(** A delimited file and a line-JSON file. *)
Definition two_files : list src_file :=
  [ {| name := "t1.json"; lines := [line_x1; line_bad1; line_y3] |};
    {| name := "t0.csv"; lines := ["a.x,b" ++ nl; "1,2" ++ nl] |} ].

Definition two_files_world : world := world_with "tracks" (folder_fs two_files).

Definition two_files_state : run_state :=
  state_of (for_events py "tracks"
              (dataset_events py None two_files)
              (init_state (fs two_files_world "tracks") two_files_world 0)).

(** Two records with the same keys and values in another order, and one
    record between them. *)
Definition rec_ab : record := [("a", JInt 1); ("b", JInt 2)].
Definition rec_ba : record := [("b", JInt 2); ("a", JInt 1)].
Definition rec_c : record := [("c", JInt 3)].

Definition after_duplicate : run_state :=
  state_of (for_events py "tracks"
              ([] ++ EYield rec_ab :: [EYield rec_c] ++ [EYield rec_ba]) fresh).

End Sample.

(** ** Further observations *)

(** [d.get(k)] *)
Fixpoint dict_get {V : Type} (k : string) (d : list (string * V)) : option V :=
  match d with
  | [] => None
  | (k', v) :: d' => if String.eqb k' k then Some v else dict_get k d'
  end.

(** The extensions for which the line-JSON reader is chosen. *)
Definition json_suffixes : list string := [""; ".j"; ".js"; ".jso"; ".json"].

(** The files that a resumed run skips: those whose name is at most the
    checkpointed one. *)
Definition upto (last_done : string) (folder : list src_file) : list src_file :=
  List.filter (λ src, String.leb (name src) last_done) folder.

Definition is_duplicate_entry (e : log_entry) : bool :=
  match e with LogDuplicate _ => true | _ => false end.

(** The checkpoint counts no more rows than the part-file holds lines. *)
Definition ckpt_covered (d : dataset_fs) : Prop :=
  ∀ n r, ckpt_file d = Some (n, r) →
         ∃ p, part_file d = Some p ∧ (r ≤ Z.of_nat (length p))%Z.

(** A run state and an outcome, the log left aside. *)
Definition without_log (st : run_state) : run_state :=
  {| rows := rows st; bad_json := bad_json st; dup_seen := dup_seen st;
     cols_seen := cols_seen st; hashes := hashes st; gz := gz st;
     gz_open := gz_open st; writes_left := writes_left st;
     ckpt := ckpt st; log := [] |}.

Definition outcome_without_log (o : outcome) : outcome :=
  match o with
  | Ok st => Ok (without_log st)
  | Exc e st => Exc e (without_log st)
  end.

Section MoreObservations.

Variable py : library.

(** The lines that the records parsed from a list of files give, in the
    order of the list. *)
Definition artifact_lines (l : list src_file) : list string :=
  json_dumps py false ∘ clean_cols <$> concat (parsed py <$> l).

(** The number of malformed lines of a file that the line-JSON reader
    reads. *)
Definition malformed_lines (src : src_file) : nat :=
  match reader_for (name src) with
  | JsonReader => length (List.filter (is_malformed py) (lines src))
  | _ => 0
  end.

(** A line that [json.loads] decodes, to a dict or to another value. *)
Definition is_well_formed (line : string) : bool :=
  match classify py line with Object _ | NotObject => true | _ => false end.

End MoreObservations.

(** ** The checkpoint file as text *)

Module CkptText.

(** [f.readline()] on a text file opened with universal newlines: the
    text up to and with the first line end ([\n], [\r] or [\r\n], read as
    [\n]), and the text left. *)
Fixpoint readline (s : string) : string * string :=
  match s with
  | EmptyString => (EmptyString, EmptyString)
  | String c s' =>
      if Ascii.eqb c "010" then (String "010" EmptyString, s')
      else if Ascii.eqb c "013" then
        (String "010" EmptyString,
         match s' with
         | String c' s'' => if Ascii.eqb c' "010" then s'' else s'
         | EmptyString => s'
         end)
      else let '(l, rest) := readline s' in (String c l, rest)
  end.

(** The digits of [int(s)]: decimal digits, with single underscores
    between digits. *)
Fixpoint py_digits (s : string) (after_digit : bool) : option Decimal.uint :=
  match s with
  | EmptyString => if after_digit then Some Decimal.Nil else None
  | String c s' =>
      if Ascii.eqb c "_" then
        (if after_digit then py_digits s' false else None)
      else uint_of_char c (py_digits s' true)
  end.

(** [int(s)] on a stripped string: [None] when it raises [ValueError].
    There is no bound on the number of digits, as in Python 3.10, the
    version the notebook ran on. *)
Definition py_int (s : string) : option Z :=
  match s with
  | EmptyString => None
  | String c s' =>
      if Ascii.eqb c "-" then
        option_map (λ d, Z.of_int (Decimal.Neg d)) (py_digits s' false)
      else if Ascii.eqb c "+" then
        option_map (λ d, Z.of_int (Decimal.Pos d)) (py_digits s' false)
      else option_map (λ d, Z.of_int (Decimal.Pos d)) (py_digits s false)
  end.

(** [str(n)] *)
Definition py_str (n : Z) : string := NilZero.string_of_int (Z.to_int n).

(** What [save_ckpt] writes: [f"{filename}\n{rows}\n"]. *)
Definition save_ckpt_text (filename : string) (n : Z) : string :=
  filename +:+ String "010" (py_str n +:+ String "010" EmptyString).

(** [load_ckpt] on the text of the checkpoint file ([None]: no file):
<<
    name = f.readline().strip()
    rows = int(f.readline().strip() or 0)
>>
    The outer [None] stands for the [ValueError] of [int]. *)
Definition load_ckpt_text (cp : option string) : option (option string * Z) :=
  match cp with
  | None => Some (None, 0%Z)
  | Some text =>
      let '(line1, rest) := readline text in
      let name := PyStr.strip line1 in
      let '(line2, _) := readline rest in
      match PyStr.strip line2 with
      | EmptyString => Some (Some name, 0%Z)
      | t => match py_int t with
             | Some n => Some (Some name, n)
             | None => None
             end
      end
  end.

(** No line end occurs in [s]. *)
Definition one_line (s : string) : Prop :=
  ("010"%char ∉ PyStr.chars s) ∧ ("013"%char ∉ PyStr.chars s).

(** The characters that can occur in a text that [int] accepts. *)
Definition int_char (c : ascii) : bool :=
  let n := nat_of_ascii c in
  ((48 <=? n)%nat && (n <=? 57)%nat) || (n =? 95)%nat || (n =? 43)%nat
  || (n =? 45)%nat.

End CkptText.

(** ** More sample inputs *)

Module Cases.

(** The repaired folder of the samples, with the checkpoint and the
    part-file that a run stopped right after its first file leaves. *)
Definition at_boundary : world :=
  Sample.world_with "tracks"
    {| raw := Some Sample.repaired_folder;
       ckpt_file := Some ("a.json", 1%Z);
       part_file := Some [Sample.dumps false [("x", JInt 1)]];
       final_file := None; part_openable := true; write_limit := None;
       flushed := 0 |}.

(** A line-JSON file whose second line is a JSON list. *)
Definition with_list_line : src_file :=
  {| name := "b.json";
     lines := [Sample.line_y3; Sample.line_list; Sample.line_x2] |}.

(** A delimited file whose row has more cells than the header. *)
Definition with_long_row : src_file :=
  {| name := "c.csv";
     lines := ["a,b" ++ Sample.nl; "1,2,3" ++ Sample.nl] |}.

(** The state in which the resumed run of [at_boundary] ends. *)
Definition resumed_state : run_state :=
  state_of (for_events Sample.py "tracks"
              (dataset_events Sample.py (Some "a.json") Sample.repaired_folder)
              (init_state (fs at_boundary "tracks") at_boundary 1)).

(** A line-JSON file with three well-formed JSON lines, one of which is
    a list, and two malformed lines. *)
Definition three_well_formed : src_file :=
  {| name := "t.json";
     lines := [Sample.line_x1; Sample.line_bad1; Sample.line_list;
               Sample.line_bad2; Sample.line_y3] |}.

(** The state at the start of a run in which the second [gz.write]
    raises. *)
Definition one_write_left : run_state :=
  init_state
    {| raw := None; ckpt_file := None; part_file := None; final_file := None;
       part_openable := true; write_limit := Some 1; flushed := 0 |}
    (Sample.world_with "tracks" Sample.empty_fs) 0.

(** A folder in which the name of the first file in order starts with a
    space, and the second file holds a JSON list. *)
Definition spaced_folder : list src_file :=
  [ {| name := "Z.json"; lines := [Sample.line_list] |};
    {| name := " a.json"; lines := [Sample.line_x1] |} ].

(** The second file once its line is replaced by an object. *)
Definition spaced_file : src_file :=
  {| name := "Z.json"; lines := [Sample.line_y3] |}.

Definition spaced_repaired : list src_file :=
  [ spaced_file; {| name := " a.json"; lines := [Sample.line_x1] |} ].

Definition spaced_first_run : world :=
  Sample.world_with "tracks" (Sample.folder_fs spaced_folder).

(** The files as the failed first run leaves them, and the second run
    that starts from them with the folder repaired. *)
Definition spaced_after_failure : world :=
  world_of (Sample.run "tracks" spaced_first_run).

Definition spaced_second_run : world :=
  Sample.with_fs "tracks"
    (Sample.with_raw spaced_repaired (fs spaced_after_failure "tracks"))
    spaced_after_failure.




End Cases.

(** ** Properties *)

Local Close Scope string_scope.

(** *** Strings *)

Lemma app_cons (c : ascii) (p s : string) :
  String c p +:+ s = String c (p +:+ s).
Proof. reflexivity. Qed.

Lemma dot_free_cons (c : ascii) (s : string) :
  c ≠ "."%char → PyStr.dot_free s → PyStr.dot_free (String c s).
Proof.
  intros Hc Hs. unfold PyStr.dot_free, PyStr.chars. simpl.
  intros [?|?]%elem_of_cons; [congruence|]. by apply Hs.
Qed.

Lemma split_dot_last (k : string) :
  ∃ h t, PyStr.split_dot k = h :: t ∧
    PyStr.dot_free (List.last (h :: t) EmptyString) ∧
    ((t = [] ∧ h = k ∧ PyStr.dot_free k) ∨
     (t ≠ [] ∧ (∃ p, k = p +:+ "." +:+ List.last (h :: t) EmptyString))).
Proof.
  induction k as [|c k IH].
  - exists EmptyString, []. split; [done|]. split; [apply not_elem_of_nil|].
    left. repeat split. apply not_elem_of_nil.
  - destruct IH as (h & t & Hs & Hnd & Hcase).
    cbn [PyStr.split_dot]. rewrite Hs.
    destruct (PyStr.is_dot c) eqn:Hc.
    + apply Ascii.eqb_eq in Hc. subst c.
      exists EmptyString, (h :: t). split; [done|].
      split; [exact Hnd|]. right. split; [done|].
      destruct Hcase as [(-> & -> & _)|(_ & p & Hp)].
      * exists EmptyString. reflexivity.
      * exists (String "." p). rewrite app_cons. by f_equal.
    + assert (c ≠ "."%char) as Hne.
      { intros ->. unfold PyStr.is_dot in Hc. by rewrite Ascii.eqb_refl in Hc. }
      exists (String c h), t. split; [done|].
      destruct Hcase as [(-> & -> & Hk)|(Ht & p & Hp)].
      * split; [by apply dot_free_cons|].
        left. repeat split. by apply dot_free_cons.
      * assert (List.last (String c h :: t) EmptyString
                = List.last (h :: t) EmptyString) as Hl.
        { destruct t; [done|]. reflexivity. }
        rewrite Hl. split; [exact Hnd|]. right. split; [done|].
        exists (String c p). rewrite app_cons. by f_equal.
Qed.

Lemma norm_key_spec (k : string) :
  PyStr.dot_free (norm_key k) ∧
  ((PyStr.dot_free k ∧ norm_key k = k) ∨ (∃ p, k = p +:+ "." +:+ norm_key k)).
Proof.
  unfold norm_key. destruct (split_dot_last k) as (h & t & -> & Hnd & Hcase).
  split; [exact Hnd|].
  destruct Hcase as [(-> & -> & Hk)|(_ & Hp)]; [left|right]; done.
Qed.

Lemma lstrip_spaces (s : string) :
  Forall (λ c, PyStr.is_space c = true) (PyStr.chars s) →
  PyStr.lstrip s = EmptyString.
Proof.
  induction s as [|c s IH]; [done|].
  unfold PyStr.chars. simpl. intros [Hc Hs]%Forall_cons.
  rewrite Hc. by apply IH.
Qed.

Lemma strip_spaces (s : string) :
  Forall (λ c, PyStr.is_space c = true) (PyStr.chars s) →
  PyStr.strip s = EmptyString.
Proof. intros H. unfold PyStr.strip. by rewrite lstrip_spaces. Qed.

(** *** Dicts *)

Lemma keys_dict_set {V : Type} (k : string) (v : V) (d : list (string * V)) (c : string) :
  c ∈ keys (dict_set k v d) ↔ c = k ∨ c ∈ keys d.
Proof.
  induction d as [|[k' v'] d IH]; simpl.
  - unfold keys. simpl. rewrite list_elem_of_singleton.
    rewrite elem_of_nil. tauto.
  - destruct (String.eqb_spec k' k) as [->|Hne]; unfold keys in *; simpl.
    + rewrite !elem_of_cons. tauto.
    + rewrite !elem_of_cons, IH. tauto.
Qed.

Lemma keys_fold_dict_set {V : Type} (rec acc : list (string * V)) (c : string) :
  c ∈ keys (fold_left (λ out kv, dict_set (norm_key kv.1) kv.2 out) rec acc)
  ↔ c ∈ keys acc ∨ ∃ kv, kv ∈ rec ∧ c = norm_key kv.1.
Proof.
  revert acc. induction rec as [|kv rec IH]; intros acc; simpl.
  - split; [by left|]. intros [?|(? & []%elem_of_nil & _)]. done.
  - rewrite IH, keys_dict_set. split.
    + intros [[->|?]|(kv' & Hin & ->)].
      * right. exists kv. split; [left|done].
      * by left.
      * right. exists kv'. split; [by right|done].
    + intros [?|(kv' & Hin & ->)]; [left; by right|].
      apply elem_of_cons in Hin as [->|Hin]; [left; by left|].
      right. by exists kv'.
Qed.

Lemma keys_clean_cols {V : Type} (rec : list (string * V)) (c : string) :
  c ∈ keys (clean_cols rec) ↔ ∃ kv, kv ∈ rec ∧ c = norm_key kv.1.
Proof.
  unfold clean_cols. rewrite keys_fold_dict_set. unfold keys at 1. simpl.
  rewrite elem_of_nil. tauto.
Qed.

Section Properties.

#[local] Set Default Proof Using "Type".

Variable py : library.

Local Abbreviation json_loads := (json_loads py).
Local Abbreviation json_dumps := (json_dumps py).
Local Abbreviation sha1 := (sha1 py).
Local Abbreviation read_csv := (read_csv py).
Local Abbreviation row_hash := (row_hash py).
Local Abbreviation csv_rows := (csv_rows py).
Local Abbreviation json_rows := (json_rows py).
Local Abbreviation note_dup := (note_dup py).
Local Abbreviation body := (body py).
Local Abbreviation step := (step py).
Local Abbreviation for_events := (for_events py).
Local Abbreviation file_events := (file_events py).
Local Abbreviation dataset_events := (dataset_events py).
Local Abbreviation process := (process py).
Local Abbreviation process_each := (process_each py).
Local Abbreviation run_all := (run_all py).
Local Abbreviation classify := (classify py).
Local Abbreviation is_malformed := (is_malformed py).
Local Abbreviation is_not_object := (is_not_object py).
Local Abbreviation objects := (objects py).
Local Abbreviation csv_records := (csv_records py).
Local Abbreviation parsed := (parsed py).
Local Abbreviation readable := (readable py).

(** *** The loop *)

Lemma for_events_cons (ds : string) (ev : event) (evs : list event)
    (st : run_state) :
  for_events ds (ev :: evs) st =
  match step ds ev st with
  | Ok st' => for_events ds evs st'
  | Exc e st' => Exc e st'
  end.
Proof. reflexivity. Qed.

Lemma for_events_app (ds : string) (evs1 evs2 : list event) (st : run_state) :
  for_events ds (evs1 ++ evs2) st =
  match for_events ds evs1 st with
  | Ok st' => for_events ds evs2 st'
  | Exc e st' => Exc e st'
  end.
Proof.
  revert st. induction evs1 as [|ev evs1 IH]; intros st; simpl; [done|].
  destruct (step ds ev st); [apply IH|done].
Qed.

Lemma fold_add_cols (l : list string) (s : gset string) :
  fold_left (λ s c, {[c]} ∪ s) l s = list_to_set l ∪ s.
Proof.
  revert s. induction l as [|c l IH]; intros s; simpl.
  - set_solver.
  - rewrite IH. set_solver.
Qed.

Lemma scan_cols_seen (cs : list string) (seen : gset string) :
  (∀ c, c ∈ cs → c ∈ seen) → scan_cols cs seen = ([], seen).
Proof.
  induction cs as [|c cs IH]; intros H; simpl; [done|].
  rewrite bool_decide_eq_true_2 by (apply H; left).
  apply IH. intros c' Hc'. apply H. by right.
Qed.

Lemma set_cols_id (st : run_state) : set_cols (cols_seen st) st = st.
Proof. by destruct st. Qed.

(** The schema check finds nothing new once the reader has added the
    keys of the record to the shared set. *)
Lemma note_cols_seen (ds : string) (r : record) (st : run_state) :
  (∀ c, c ∈ keys r → c ∈ cols_seen st) → note_cols ds r st = st.
Proof.
  intros H. unfold note_cols. rewrite scan_cols_seen by done.
  apply set_cols_id.
Qed.

Lemma cols_seen_note_dup (ds : string) (r : record) (st : run_state) :
  cols_seen (note_dup ds r st) = cols_seen st.
Proof. unfold note_dup. by destruct (_ && _). Qed.

Lemma cols_seen_add_cols (r : record) (st : run_state) :
  cols_seen (add_cols r st) = list_to_set (keys r) ∪ cols_seen st.
Proof. unfold add_cols. simpl. apply fold_add_cols. Qed.

Lemma step_yield (ds : string) (r : record) (st : run_state) :
  step ds (EYield r) st =
  match gz_write (json_dumps false r) (note_dup ds r (add_cols r st)) with
  | Some st2 => Ok (incr_rows st2)
  | None => Exc OSError (note_dup ds r (add_cols r st))
  end.
Proof.
  simpl. unfold body. rewrite note_cols_seen; [done|].
  intros c Hc. rewrite cols_seen_note_dup, cols_seen_add_cols. set_solver.
Qed.

Lemma note_dup_fields (ds : string) (r : record) (st : run_state) :
  let st' := note_dup ds r st in
  rows st' = rows st ∧ bad_json st' = bad_json st ∧ gz st' = gz st ∧
  gz_open st' = gz_open st ∧ writes_left st' = writes_left st ∧
  ckpt st' = ckpt st.
Proof. unfold note_dup. by destruct (_ && _). Qed.

Lemma gz_write_unlimited (text : string) (st : run_state) :
  writes_left st = None →
  ∃ st', gz_write text st = Some st' ∧
    gz st' = gz st ++ [text] ∧ rows st' = rows st ∧
    bad_json st' = bad_json st ∧ cols_seen st' = cols_seen st ∧
    writes_left st' = None ∧ gz_open st' = gz_open st.
Proof.
  intros Hw. unfold gz_write. rewrite Hw. eexists. by split.
Qed.

Lemma no_raise_cons (ev : event) (evs : list event) :
  no_raise (ev :: evs) → (∀ e, ev ≠ ERaise e) ∧ no_raise evs.
Proof.
  intros H. split.
  - intros e ->. apply (H e). left.
  - intros e He. apply (H e). by right.
Qed.

Lemma no_raise_app (evs1 evs2 : list event) :
  no_raise (evs1 ++ evs2) ↔ no_raise evs1 ∧ no_raise evs2.
Proof.
  unfold no_raise. split.
  - intros H. split; intros e He; apply (H e); apply elem_of_app; auto.
  - intros [H1 H2] e [?|?]%elem_of_app; [by apply (H1 e)|by apply (H2 e)].
Qed.

(** A run of steps in which no reader raises and no write fails: what
    it leaves in the state. *)
Lemma for_events_ok (ds : string) (evs : list event) (st : run_state) :
  no_raise evs → writes_left st = None →
  ∃ st', for_events ds evs st = Ok st' ∧
    gz st' = gz st ++ (json_dumps false <$> yields evs) ∧
    rows st' = (rows st + Z.of_nat (length (yields evs)))%Z ∧
    bad_json st' = (bad_json st + Z.of_nat (bad_count evs))%Z ∧
    cols_seen st' = cols_of (yields evs) ∪ cols_seen st ∧
    writes_left st' = None ∧ gz_open st' = gz_open st.
Proof.
  revert st. induction evs as [|ev evs IH]; intros st Hnr Hw.
  - exists st. unfold bad_count, cols_of. simpl. rewrite app_nil_r.
    repeat split; try done; try lia. set_solver.
  - apply no_raise_cons in Hnr as [Hev Hnr].
    rewrite for_events_cons.
    destruct ev as [r|path|e|src|src].
    + rewrite step_yield.
      destruct (note_dup_fields ds r (add_cols r st))
        as (Hr & Hb & Hg & Ho & Hwl & _).
      pose proof (cols_seen_note_dup ds r (add_cols r st)) as Hc.
      rewrite cols_seen_add_cols in Hc.
      set (st1 := note_dup ds r (add_cols r st)) in *.
      destruct (gz_write_unlimited (json_dumps false r) st1)
        as (st2 & -> & Hg2 & Hr2 & Hb2 & Hc2 & Hw2 & Ho2).
      { rewrite Hwl. exact Hw. }
      destruct (IH (incr_rows st2) Hnr Hw2)
        as (st' & -> & Hgz & Hrows & Hbad & Hcols & Hw' & Hopen).
      exists st'. split; [done|].
      change (rows (incr_rows st2)) with (rows st2 + 1)%Z in Hrows.
      change (gz (incr_rows st2)) with (gz st2) in Hgz.
      change (bad_json (incr_rows st2)) with (bad_json st2) in Hbad.
      change (cols_seen (incr_rows st2)) with (cols_seen st2) in Hcols.
      change (gz_open (incr_rows st2)) with (gz_open st2) in Hopen.
      rewrite Hgz, Hrows, Hbad, Hcols, Hopen, Hg2, Hr2, Hb2, Hc2, Ho2.
      rewrite Hg, Hr, Hb, Hc, Ho.
      change (gz (add_cols r st)) with (gz st).
      change (rows (add_cols r st)) with (rows st).
      change (bad_json (add_cols r st)) with (bad_json st).
      change (gz_open (add_cols r st)) with (gz_open st).
      unfold bad_count, cols_of. simpl. rewrite <- app_assoc.
      repeat split; try done; try lia. set_solver.
    + simpl.
      edestruct IH as (st' & -> & Hgz & Hrows & Hbad & Hcols & Hw' & Hopen);
        [done|..|exists st'].
      { exact Hw. }
      simpl in *. split; [done|].
      rewrite Hgz, Hrows, Hbad, Hcols, Hw', Hopen.
      unfold bad_count. simpl. repeat split; try done; lia.
    + by destruct (Hev e).
    + simpl.
      edestruct IH as (st' & -> & Hgz & Hrows & Hbad & Hcols & Hw' & Hopen);
        [done|..|exists st'].
      { exact Hw. }
      simpl in *. by rewrite Hgz, Hrows, Hbad, Hcols, Hw', Hopen.
    + simpl.
      edestruct IH as (st' & -> & Hgz & Hrows & Hbad & Hcols & Hw' & Hopen);
        [done|..|exists st'].
      { exact Hw. }
      simpl in *. by rewrite Hgz, Hrows, Hbad, Hcols, Hw', Hopen.
Qed.

(** *** The readers *)

Lemma json_rows_cons (path line : string) (fh : list string) :
  json_rows path (line :: fh) =
  match classify line with
  | Blank => json_rows path fh
  | Malformed => EBadJson path :: json_rows path fh
  | Object d => EYield (clean_cols d) :: json_rows path fh
  | NotObject => [ERaise AttributeError]
  end.
Proof.
  simpl. unfold classify. destruct (PyStr.strip line) as [|c s]; [done|].
  simpl. destruct (json_loads (String c s)) as [[]|]; done.
Qed.

Lemma json_rows_app_blank (path line : string) (pre post : list string) :
  classify line = Blank →
  json_rows path (pre ++ line :: post) = json_rows path (pre ++ post).
Proof.
  intros Hl. induction pre as [|l pre IH].
  - simpl app. by rewrite json_rows_cons, Hl.
  - rewrite <- !app_comm_cons, !json_rows_cons, IH. done.
Qed.

Lemma json_rows_trace (path : string) (fh : list string) :
  (∀ line, line ∈ fh → is_not_object line = false) →
  no_raise (json_rows path fh) ∧
  yields (json_rows path fh) = clean_cols <$> objects fh ∧
  bad_count (json_rows path fh) = length (List.filter is_malformed fh).
Proof.
  induction fh as [|line fh IH]; intros H.
  - repeat split. intros e. apply not_elem_of_nil.
  - destruct IH as (Hnr & Hy & Hb).
    { intros l Hl. apply H. by right. }
    rewrite json_rows_cons. unfold objects, is_malformed. simpl.
    pose proof (H line ltac:(left)) as Hline. unfold is_not_object in Hline.
    destruct (classify line) eqn:Hc; try done; simpl.
    + split; [|split]; [intros e [?|?]%elem_of_cons; [done|by apply (Hnr e)]|done|].
      unfold bad_count in *. simpl. by rewrite Hb.
    + split; [|split]; [intros e [?|?]%elem_of_cons; [done|by apply (Hnr e)]|..].
      * by rewrite Hy.
      * exact Hb.
Qed.

Lemma yields_app (evs1 evs2 : list event) :
  yields (evs1 ++ evs2) = yields evs1 ++ yields evs2.
Proof. apply omap_app. Qed.

Lemma bad_count_app (evs1 evs2 : list event) :
  bad_count (evs1 ++ evs2) = bad_count evs1 + bad_count evs2.
Proof. unfold bad_count. by rewrite List.filter_app, length_app. Qed.

Lemma chunk_trace (chunk : list record) :
  let evs := map (λ r, EYield (clean_cols r)) chunk in
  yields evs = clean_cols <$> chunk ∧ bad_count evs = 0 ∧ no_raise evs.
Proof.
  induction chunk as [|r chunk (IH1 & IH2 & IH3)]; simpl.
  - repeat split. intros e. apply not_elem_of_nil.
  - split; [|split].
    + unfold yields in *. simpl. by rewrite IH1.
    + exact IH2.
    + intros e [?|?]%elem_of_cons; [done|by apply (IH3 e)].
Qed.

Lemma chunks_trace (chunks : list (list record)) :
  let evs := flat_map (λ chunk, map (λ r, EYield (clean_cols r)) chunk) chunks in
  yields evs = clean_cols <$> concat chunks ∧ bad_count evs = 0 ∧ no_raise evs.
Proof.
  induction chunks as [|chunk chunks (IH1 & IH2 & IH3)]; simpl.
  - repeat split. intros e. apply not_elem_of_nil.
  - destruct (chunk_trace chunk) as (H1 & H2 & H3).
    rewrite yields_app, bad_count_app, fmap_app, H1, H2, IH1, IH2.
    repeat split. by apply no_raise_app.
Qed.

Lemma csv_rows_trace (fh : list string) :
  yields (csv_rows fh) = clean_cols <$> csv_records fh ∧
  bad_count (csv_rows fh) = 0 ∧
  (csv_error (read_csv fh) = false → no_raise (csv_rows fh)).
Proof.
  unfold csv_rows, csv_records.
  destruct (chunks_trace (csv_chunks (read_csv fh))) as (H1 & H2 & H3).
  rewrite yields_app, bad_count_app, H1, H2.
  destruct (csv_error (read_csv fh)); simpl.
  - rewrite app_nil_r. repeat split. done.
  - rewrite app_nil_r. repeat split. intros _. apply no_raise_app.
    split; [done|]. intros e. apply not_elem_of_nil.
Qed.

Lemma classify_spaces (line : string) :
  Forall (λ c, PyStr.is_space c = true) (PyStr.chars line) →
  classify line = Blank.
Proof. intros H. unfold classify. by rewrite strip_spaces. Qed.

(** *** Duplicates and new columns *)

Lemma note_dup_spec (ds : string) (r : record) (st : run_state) :
  let st' := note_dup ds r st in
  hashes st' = {[row_hash r]} ∪ hashes st ∧
  dup_seen st' = dup_seen st || bool_decide (row_hash r ∈ hashes st) ∧
  List.filter is_new_columns (log st') = List.filter is_new_columns (log st).
Proof.
  unfold note_dup. destruct (dup_seen st) eqn:Hd; simpl.
  - by rewrite Hd.
  - destruct (bool_decide (row_hash r ∈ hashes st)); simpl; [|by rewrite Hd].
    rewrite List.filter_app. simpl. by rewrite app_nil_r.
Qed.

(** One step never logs a new column, only adds digests, and never
    resets the duplicate flag. *)
Lemma step_invariants (ds : string) (ev : event) (st : run_state) :
  let st' := state_of (step ds ev st) in
  List.filter is_new_columns (log st') = List.filter is_new_columns (log st) ∧
  hashes st ⊆ hashes st' ∧
  (dup_seen st = true → dup_seen st' = true).
Proof.
  cbv zeta. destruct ev as [r|path|e|src|src].
  - rewrite step_yield.
    destruct (note_dup_spec ds r (add_cols r st)) as (Hh & Hd & Hl).
    change (hashes (add_cols r st)) with (hashes st) in *.
    change (dup_seen (add_cols r st)) with (dup_seen st) in *.
    change (log (add_cols r st)) with (log st) in *.
    unfold gz_write. remember (note_dup ds r (add_cols r st)) as st1.
    destruct (writes_left st1) as [[|n]|];
      simpl; rewrite Hl, Hh, Hd;
      (split; [done|]; split; [set_solver|]; by intros ->).
  - simpl. rewrite List.filter_app. simpl. by rewrite app_nil_r.
  - done.
  - simpl. rewrite List.filter_app. simpl. by rewrite app_nil_r.
  - done.
Qed.

Lemma for_events_invariants (ds : string) (evs : list event) (st : run_state) :
  let st' := state_of (for_events ds evs st) in
  List.filter is_new_columns (log st') = List.filter is_new_columns (log st) ∧
  hashes st ⊆ hashes st' ∧
  (dup_seen st = true → dup_seen st' = true).
Proof.
  revert st. induction evs as [|ev evs IH]; intros st; [done|].
  rewrite for_events_cons.
  pose proof (step_invariants ds ev st) as (Hl & Hh & Hd).
  destruct (step ds ev st) as [st1|e st1]; simpl in Hl, Hh, Hd; [|done].
  destruct (IH st1) as (Hl' & Hh' & Hd').
  split; [congruence|]. split; [set_solver|]. auto.
Qed.

(** A record that went through the loop has left its digest, and a
    record whose digest is there sets the flag. *)
Lemma step_yield_dup (ds : string) (r : record) (st st' : run_state) :
  step ds (EYield r) st = Ok st' →
  row_hash r ∈ hashes st' ∧ (row_hash r ∈ hashes st → dup_seen st' = true).
Proof.
  rewrite step_yield.
  destruct (note_dup_spec ds r (add_cols r st)) as (Hh & Hd & _).
  change (hashes (add_cols r st)) with (hashes st) in *.
  change (dup_seen (add_cols r st)) with (dup_seen st) in *.
  unfold gz_write. remember (note_dup ds r (add_cols r st)) as st1.
  destruct (writes_left st1) as [[|n]|];
    [done|..]; intros [= <-]; simpl; rewrite Hh, Hd;
    (split; [set_solver|]; intros Hin;
     rewrite bool_decide_eq_true_2 by done; by destruct (dup_seen st)).
Qed.

Lemma for_events_app_ok (ds : string) (evs1 evs2 : list event)
    (st st' : run_state) :
  for_events ds (evs1 ++ evs2) st = Ok st' →
  ∃ st1, for_events ds evs1 st = Ok st1 ∧ for_events ds evs2 st1 = Ok st'.
Proof.
  rewrite for_events_app. destruct (for_events ds evs1 st) as [st1|]; [|done].
  intros H. by exists st1.
Qed.

(** What a run of steps has written and counted, whether it ends well
    or by an exception: the lines of the first [k] records. *)
Lemma for_events_written (ds : string) (evs : list event) (st : run_state) :
  ∃ k : nat,
    k ≤ length (yields evs) ∧
    gz (state_of (for_events ds evs st)) =
      gz st ++ (json_dumps false <$> take k (yields evs)) ∧
    rows (state_of (for_events ds evs st)) = (rows st + Z.of_nat k)%Z ∧
    (∀ st', for_events ds evs st = Ok st' → k = length (yields evs)).
Proof.
  revert st. induction evs as [|ev evs IH]; intros st.
  - exists 0. simpl. rewrite app_nil_r. repeat split; try done; lia.
  - rewrite for_events_cons. destruct ev as [r|path|e|src|src].
    + rewrite step_yield.
      destruct (note_dup_fields ds r (add_cols r st))
        as (Hr & _ & Hg & _ & _ & _).
      change (rows (add_cols r st)) with (rows st) in Hr.
      change (gz (add_cols r st)) with (gz st) in Hg.
      unfold gz_write. remember (note_dup ds r (add_cols r st)) as st1.
      destruct (writes_left st1) as [[|n]|].
      * exists 0. simpl. rewrite app_nil_r, Hg, Hr.
        repeat split; try done; lia.
      * match goal with |- context [for_events ds evs ?s] =>
          destruct (IH s) as (k & Hk & Hgz & Hrows & Hok) end.
        exists (S k). simpl in *. split; [lia|].
        split; [by rewrite Hgz, Hg, <- app_assoc|].
        split; [rewrite Hrows, Hr; lia|].
        intros st' H. by rewrite (Hok st' H).
      * match goal with |- context [for_events ds evs ?s] =>
          destruct (IH s) as (k & Hk & Hgz & Hrows & Hok) end.
        exists (S k). simpl in *. split; [lia|].
        split; [by rewrite Hgz, Hg, <- app_assoc|].
        split; [rewrite Hrows, Hr; lia|].
        intros st' H. by rewrite (Hok st' H).
    + simpl. match goal with |- context [for_events ds evs ?s] =>
        destruct (IH s) as (k & Hk & Hgz & Hrows & Hok) end.
      exists k. by simpl in *.
    + exists 0. simpl. rewrite app_nil_r. repeat split; try done; lia.
    + simpl. match goal with |- context [for_events ds evs ?s] =>
        destruct (IH s) as (k & Hk & Hgz & Hrows & Hok) end.
      exists k. by simpl in *.
    + simpl. match goal with |- context [for_events ds evs ?s] =>
        destruct (IH s) as (k & Hk & Hgz & Hrows & Hok) end.
      exists k. by simpl in *.
Qed.

(** *** The loop over the files *)

Lemma ltb_negb_leb (a b : string) : String.ltb a b = negb (String.leb b a).
Proof.
  unfold String.ltb, String.leb. rewrite (String.compare_antisym b a).
  by destruct (String.compare a b).
Qed.

Lemma skip_by_name_some (L n : string) :
  L ≠ "" → skip_by_name (Some L) n = negb (String.ltb L n).
Proof.
  intros HL. simpl. rewrite ltb_negb_leb, negb_involutive.
  by destruct L.
Qed.

Lemma file_events_none (src : src_file) :
  file_events None src =
  match reader_for (name src) with
  | CsvReader => csv_rows (lines src) ++ [ESaveCkpt (name src)]
  | JsonReader => json_rows (name src) (lines src) ++ [ESaveCkpt (name src)]
  | NoReader => [ESkipped (name src)]
  end.
Proof. reflexivity. Qed.

Lemma file_events_some (L : string) (src : src_file) :
  L ≠ "" →
  file_events (Some L) src =
  if String.ltb L (name src) then file_events None src else [].
Proof.
  intros HL. unfold file_events. rewrite skip_by_name_some by done.
  by destruct (String.ltb L (name src)).
Qed.

Lemma flat_map_filter {A B : Type} (p : A → bool) (f : A → list B) (l : list A) :
  flat_map (λ x, if p x then f x else []) l = flat_map f (List.filter p l).
Proof.
  induction l as [|x l IH]; simpl; [done|].
  destruct (p x); simpl; by rewrite IH.
Qed.

Lemma dataset_events_resume (L : string) (folder : list src_file) :
  L ≠ "" →
  dataset_events (Some L) folder =
  flat_map (file_events None) (after L (sorted folder)).
Proof.
  intros HL. unfold dataset_events, after.
  rewrite <- flat_map_filter. apply flat_map_ext.
  intros src. by apply file_events_some.
Qed.

Lemma insert_by_name_perm (f : src_file) (l : list src_file) :
  insert_by_name f l ≡ₚ f :: l.
Proof.
  induction l as [|g l IH]; simpl; [done|].
  destruct (String.leb (name f) (name g)); [done|].
  rewrite IH. apply Permutation_swap.
Qed.

Lemma sorted_perm (folder : list src_file) : sorted folder ≡ₚ folder.
Proof.
  induction folder as [|f folder IH]; simpl; [done|].
  by rewrite insert_by_name_perm, IH.
Qed.

Lemma elem_of_sorted (folder : list src_file) (src : src_file) :
  src ∈ sorted folder ↔ src ∈ folder.
Proof. by rewrite sorted_perm. Qed.

(** A run of steps that ends well has met no exception, and has
    gathered the columns and counted the malformed lines of all steps. *)
Lemma for_events_ok_state (ds : string) (evs : list event) (st st' : run_state) :
  for_events ds evs st = Ok st' →
  no_raise evs ∧
  cols_seen st' = cols_of (yields evs) ∪ cols_seen st ∧
  bad_json st' = (bad_json st + Z.of_nat (bad_count evs))%Z.
Proof.
  revert st. induction evs as [|ev evs IH]; intros st.
  - intros [= <-]. split; [intros e; apply not_elem_of_nil|].
    unfold cols_of, bad_count. simpl. split; [set_solver|lia].
  - rewrite for_events_cons.
    destruct (step ds ev st) as [st1|] eqn:Hstep; [|done].
    intros (Hnr & Hc & Hb)%IH.
    destruct ev as [r|path|e|src|src].
    + rewrite step_yield in Hstep.
      destruct (note_dup_fields ds r (add_cols r st)) as (_ & Hb1 & _).
      pose proof (cols_seen_note_dup ds r (add_cols r st)) as Hc1.
      rewrite cols_seen_add_cols in Hc1.
      change (bad_json (add_cols r st)) with (bad_json st) in Hb1.
      unfold gz_write in Hstep. remember (note_dup ds r (add_cols r st)) as s1.
      assert (cols_seen st1 = cols_seen s1 ∧ bad_json st1 = bad_json s1)
        as [Hc2 Hb2].
      { destruct (writes_left s1) as [[|n]|]; [done|..];
          by injection Hstep as <-. }
      split; [intros e [?|?]%elem_of_cons; [done|by apply (Hnr e)]|].
      rewrite Hc, Hb, Hc2, Hb2, Hc1, Hb1. unfold cols_of, bad_count. simpl.
      split; [set_solver|lia].
    + injection Hstep as <-. simpl in *.
      split; [intros e [?|?]%elem_of_cons; [done|by apply (Hnr e)]|].
      rewrite Hc, Hb. unfold bad_count. simpl. split; [done|lia].
    + done.
    + injection Hstep as <-. simpl in *.
      split; [intros e [?|?]%elem_of_cons; [done|by apply (Hnr e)]|done].
    + injection Hstep as <-. simpl in *.
      split; [intros e [?|?]%elem_of_cons; [done|by apply (Hnr e)]|done].
Qed.

Lemma json_rows_no_raise (path : string) (fh : list string) :
  no_raise (json_rows path fh) →
  ∀ line, line ∈ fh → is_not_object line = false.
Proof.
  induction fh as [|l fh IH]; intros Hnr line Hin.
  - by apply elem_of_nil in Hin.
  - rewrite json_rows_cons in Hnr. unfold is_not_object.
    apply elem_of_cons in Hin as [->|Hin].
    + destruct (classify l); try done.
      exfalso. apply (Hnr AttributeError). left.
    + apply IH; [|done]. destruct (classify l); try done.
      * by apply no_raise_cons in Hnr as [_ ?].
      * by apply no_raise_cons in Hnr as [_ ?].
      * exfalso. apply (Hnr AttributeError). left.
Qed.

Lemma csv_rows_no_raise (fh : list string) :
  no_raise (csv_rows fh) → csv_error (read_csv fh) = false.
Proof.
  unfold csv_rows. intros [_ H]%no_raise_app.
  destruct (csv_error (read_csv fh)); [|done].
  exfalso. apply (H ParserError). left.
Qed.

(** The steps of a file that is not skipped by name: when no reader
    raises, the file is readable and the records are those parsed from
    it, with their keys normalized. *)
Lemma file_events_trace (src : src_file) :
  no_raise (file_events None src) →
  readable src ∧
  yields (file_events None src) = clean_cols <$> parsed src ∧
  bad_count (file_events None src) =
    match reader_for (name src) with
    | JsonReader => length (List.filter is_malformed (lines src))
    | _ => 0
    end.
Proof.
  rewrite file_events_none. unfold readable, parsed.
  destruct (reader_for (name src)).
  - intros [Hnr _]%no_raise_app. apply csv_rows_no_raise in Hnr.
    destruct (csv_rows_trace (lines src)) as (Hy & Hb & _).
    rewrite yields_app, bad_count_app, Hy, Hb. simpl.
    by rewrite app_nil_r.
  - intros [Hnr _]%no_raise_app.
    pose proof (json_rows_no_raise _ _ Hnr) as Hobj.
    destruct (json_rows_trace (name src) (lines src) Hobj) as (_ & Hy & Hb).
    rewrite yields_app, bad_count_app, Hy, Hb.
    change (bad_count [ESaveCkpt (name src)]) with 0. simpl.
    rewrite app_nil_r. split; [done|]. split; [done|lia].
  - done.
Qed.

Lemma file_events_readable (src : src_file) :
  readable src → no_raise (file_events None src).
Proof.
  rewrite file_events_none. unfold readable.
  destruct (reader_for (name src)); intros H.
  - apply no_raise_app. split; [by apply csv_rows_trace|].
    intros e [?|[]%elem_of_nil]%elem_of_cons. done.
  - apply no_raise_app. split; [by apply json_rows_trace|].
    intros e [?|[]%elem_of_nil]%elem_of_cons. done.
  - intros e [?|[]%elem_of_nil]%elem_of_cons. done.
Qed.

Lemma no_raise_flat_map {A : Type} (f : A → list event) (l : list A) :
  no_raise (flat_map f l) ↔ ∀ x, x ∈ l → no_raise (f x).
Proof.
  induction l as [|x l IH]; simpl.
  - split; [intros _ x []%elem_of_nil|intros _ e; apply not_elem_of_nil].
  - rewrite no_raise_app, IH. split.
    + intros [H1 H2] y [->|?]%elem_of_cons; auto.
    + intros H. split; [apply H; left|]. intros y Hy. apply H. by right.
Qed.

Lemma yields_flat_map {A : Type} (f : A → list event) (l : list A) :
  yields (flat_map f l) = concat (map (λ x, yields (f x)) l).
Proof.
  induction l as [|x l IH]; simpl; [done|]. by rewrite yields_app, IH.
Qed.

Lemma yields_files (l : list src_file) :
  (∀ src, src ∈ l → no_raise (file_events None src)) →
  concat (map (λ src, yields (file_events None src)) l) =
  clean_cols <$> concat (parsed <$> l).
Proof.
  induction l as [|src l IH]; intros H; [done|].
  simpl. rewrite fmap_app, IH.
  - by destruct (file_events_trace src) as (_ & -> & _); [apply H; left|].
  - intros src' Hsrc'. apply H. by right.
Qed.

Lemma yields_length (l : list src_file) :
  (∀ src, src ∈ l → no_raise (file_events None src)) →
  length (concat (map (λ src, yields (file_events None src)) l)) =
  length (concat (parsed <$> l)).
Proof. intros H. by rewrite yields_files, length_fmap. Qed.

(** *** Column normalizer *)

(** C9.  For every record key, the normalizer [k.split(".")[-1]] of
    [clean_cols] returns the part of the key after its last ["."]: the
    result holds no ["."], and either the key holds none and is returned
    unchanged, or the key is some prefix, a ["."], and the result.  So
    ["a.b.c"] gives ["c"].  The keys of a cleaned record are exactly the
    normalized keys of the record. *)
Theorem clean_cols_keeps_suffix_after_last_dot :
  (∀ k : string,
      PyStr.dot_free (norm_key k) ∧
      ((PyStr.dot_free k ∧ norm_key k = k) ∨
       (∃ p : string, k = p +:+ "." +:+ norm_key k))) ∧
  norm_key "a.b.c" = "c" ∧
  (∀ (rec : record) (c : string),
      c ∈ keys (clean_cols rec) ↔ ∃ kv, kv ∈ rec ∧ c = norm_key kv.1).
Proof.
  split; [exact norm_key_spec|]. split; [reflexivity|].
  intros rec c. apply keys_clean_cols.
Qed.

(** *** Line-JSON reader *)

(** C10.  A line of a line-JSON file that is empty or holds only
    whitespace is skipped without a trace: the reader does exactly what
    it does on the file without that line, and on such a line alone the
    loop leaves the whole state as it was (no record written, no
    malformed-record count, no log entry). *)
Theorem json_rows_skips_blank_line
    (ds path line : string) (pre post : list string) (st : run_state) :
  Forall (λ c, PyStr.is_space c = true) (PyStr.chars line) →
  json_rows path (pre ++ line :: post) = json_rows path (pre ++ post) ∧
  for_events ds (json_rows path [line]) st = Ok st.
Proof.
  intros H%classify_spaces. split.
  - by apply json_rows_app_blank.
  - by rewrite json_rows_cons, H.
Qed.

(** C5, under its conditions.  In a line-JSON file a line on which
    [json.loads] raises [JSONDecodeError] is skipped and adds one to the
    malformed-record count, and the reader goes on with the rest of the
    file: the loop over the file is the loop over the remaining lines,
    started with the count raised by one and a warning logged, nothing
    written.  The file is checkpointed as complete at its end: with every
    decodable line a JSON object and no failing write, the loop over the
    file writes one line per object, adds the number of objects to the row
    count and the number of malformed lines to [bad_json], and ends by
    saving the checkpoint with the name of the file and the new row count.
    So 3 objects and 2 malformed lines give 3 more lines and a count
    raised by 2. *)
Theorem json_malformed_lines_skipped_and_counted (ds : string) :
  (∀ (path line : string) (fh : list string) (st : run_state),
     is_malformed line = true →
     json_rows path (line :: fh) = EBadJson path :: json_rows path fh ∧
     for_events ds (json_rows path (line :: fh)) st =
       for_events ds (json_rows path fh)
         (add_log (LogBadJson path) (incr_bad_json st)) ∧
     bad_json (add_log (LogBadJson path) (incr_bad_json st))
       = (bad_json st + 1)%Z ∧
     gz (add_log (LogBadJson path) (incr_bad_json st)) = gz st ∧
     rows (add_log (LogBadJson path) (incr_bad_json st)) = rows st) ∧
  (∀ (last_done : option string) (src : src_file) (st : run_state),
     reader_for (name src) = JsonReader →
     skip_by_name last_done (name src) = false →
     (∀ line, line ∈ lines src → is_not_object line = false) →
     writes_left st = None →
     ∃ st', for_events ds (file_events last_done src) st = Ok st' ∧
       gz st' = gz st ++ (json_dumps false ∘ clean_cols <$> objects (lines src)) ∧
       rows st' = (rows st + Z.of_nat (length (objects (lines src))))%Z ∧
       bad_json st' =
         (bad_json st + Z.of_nat (length (List.filter is_malformed (lines src))))%Z ∧
       ckpt st' = Some (name src, rows st') ∧
       (length (objects (lines src)) = 3 →
        length (List.filter is_malformed (lines src)) = 2 →
        length (gz st') = length (gz st) + 3 ∧
        rows st' = (rows st + 3)%Z ∧ bad_json st' = (bad_json st + 2)%Z)).
Proof.
  split.
  - intros path line fh st Hbad. unfold is_malformed in Hbad.
    rewrite json_rows_cons. destruct (classify line); try done.
  - intros last_done src st Hr Hs Hobj Hw. unfold file_events. rewrite Hs, Hr.
    destruct (json_rows_trace (name src) (lines src) Hobj) as (Hnr & Hy & Hb).
    destruct (for_events_ok ds _ st Hnr Hw)
      as (st1 & H1 & Hgz & Hrows & Hbad & _ & _ & _).
    rewrite for_events_app, H1. simpl. eexists. split; [reflexivity|]. simpl.
    rewrite Hgz, Hrows, Hbad, Hy, Hb, length_fmap, <- list_fmap_compose.
    repeat split; try done.
    + rewrite length_app, length_fmap. f_equal. exact H.
    + f_equal. change 3%Z with (Z.of_nat 3). f_equal. exact H.
    + f_equal. change 2%Z with (Z.of_nat 2). f_equal. exact H0.
Qed.

(** *** Duplicate detector *)

(** C6.  Within one run of the loop, when a record has the same
    sorted-key serialization as a record met earlier in the run, the
    duplicate flag is true once the later record has gone through the
    loop, and it stays true whatever steps follow, however the run ends;
    and every record, duplicate or not, is written: the lines written are
    those of all the records met, in order. *)
Theorem duplicate_sets_flag_and_is_written
    (ds : string) (pre mid : list event) (r r' : record) (st st1 : run_state) :
  json_dumps true r = json_dumps true r' →
  for_events ds (pre ++ EYield r :: mid ++ [EYield r']) st = Ok st1 →
  dup_seen st1 = true ∧
  (∀ post, dup_seen (state_of (for_events ds post st1)) = true) ∧
  gz st1 = gz st ++ (json_dumps false <$>
                       (yields pre ++ r :: yields mid ++ [r'])) ∧
  (∀ post st2, for_events ds post st1 = Ok st2 →
               gz st2 = gz st1 ++ (json_dumps false <$> yields post)).
Proof.
  intros Hser Hrun.
  assert (dup_seen st1 = true) as Hdup.
  { apply for_events_app_ok in Hrun as (sa & _ & Hrun).
    rewrite for_events_cons in Hrun.
    destruct (step ds (EYield r) sa) as [sb|] eqn:Hstep; [|done].
    apply step_yield_dup in Hstep as [Hin _].
    apply for_events_app_ok in Hrun as (sc & Hmid & Hlast).
    pose proof (for_events_invariants ds mid sb) as (_ & Hsub & _).
    rewrite Hmid in Hsub. simpl in Hsub.
    rewrite for_events_cons in Hlast.
    destruct (step ds (EYield r') sc) as [sd|] eqn:Hstep'; [|done].
    simpl in Hlast. injection Hlast as <-.
    apply step_yield_dup in Hstep' as [_ Hset]. apply Hset.
    unfold row_hash in *. rewrite <- Hser. by apply Hsub. }
  split; [exact Hdup|]. split; [|split].
  - intros post. by apply for_events_invariants.
  - destruct (for_events_written ds (pre ++ EYield r :: mid ++ [EYield r']) st)
      as (k & _ & Hgz & _ & Hk).
    rewrite Hrun in Hgz. simpl in Hgz. rewrite (Hk st1 Hrun) in Hgz.
    rewrite firstn_all in Hgz. rewrite Hgz.
    by rewrite yields_app; simpl; rewrite yields_app.
  - intros post st2 Hpost.
    destruct (for_events_written ds post st1) as (k & _ & Hgz & _ & Hk).
    rewrite Hpost in Hgz. simpl in Hgz. rewrite (Hk st2 Hpost) in Hgz.
    by rewrite firstn_all in Hgz.
Qed.

(** *** Resume *)

(** With [L] the name of the last completed file as [load_ckpt] returns
    it, a source file whose name is at most [L] gives no step at all
    (nothing of it is read or written), and a file whose name is greater
    is treated as in a run without checkpoint: its reader runs over the whole file, from the
    first record, and the file is checkpointed.  The steps of the run are
    those of the files after [L] in name order; every line written during
    the run, however it ends, is a record of these files, and a run that
    ends without exception has written the records parsed from all of
    them.  Without a checkpoint no file is skipped by its name. *)
Theorem files_after_loaded_name_are_read
    (ds L : string) (folder : list src_file) (st : run_state) :
  L ≠ "" →
  (∀ src, String.leb (name src) L = true → file_events (Some L) src = []) ∧
  (∀ src, String.leb (name src) L = false →
     file_events (Some L) src =
     match reader_for (name src) with
     | CsvReader => csv_rows (lines src) ++ [ESaveCkpt (name src)]
     | JsonReader => json_rows (name src) (lines src) ++ [ESaveCkpt (name src)]
     | NoReader => [ESkipped (name src)]
     end) ∧
  dataset_events (Some L) folder =
    flat_map (file_events None) (after L (sorted folder)) ∧
  (∃ k, gz (state_of (for_events ds (dataset_events (Some L) folder) st)) =
        gz st ++ (json_dumps false <$>
                    take k (yields (flat_map (file_events None)
                                             (after L (sorted folder)))))) ∧
  (∀ st', for_events ds (dataset_events (Some L) folder) st = Ok st' →
         gz st' = gz st ++ (json_dumps false ∘ clean_cols <$>
                              concat (parsed <$> after L (sorted folder)))) ∧
  (∀ src, skip_by_name None (name src) = false) ∧
  dataset_events None folder = flat_map (file_events None) (sorted folder).
Proof.
  intros HL. split; [|split; [|split; [|split; [|split; [|split]]]]].
  - intros src Hle. rewrite file_events_some, ltb_negb_leb, Hle; done.
  - intros src Hle. rewrite file_events_some, ltb_negb_leb, Hle; done.
  - by apply dataset_events_resume.
  - destruct (for_events_written ds (dataset_events (Some L) folder) st)
      as (k & _ & Hgz & _).
    exists k. by rewrite <- dataset_events_resume.
  - intros st' Hrun.
    destruct (for_events_written ds (dataset_events (Some L) folder) st)
      as (k & _ & Hgz & _ & Hk).
    pose proof (for_events_ok_state _ _ _ _ Hrun) as (Hnr & _).
    rewrite Hrun in Hgz. simpl in Hgz. rewrite (Hk st' Hrun) in Hgz.
    rewrite firstn_all in Hgz.
    rewrite dataset_events_resume in Hnr, Hgz by done.
    rewrite yields_flat_map in Hgz. rewrite no_raise_flat_map in Hnr.
    rewrite yields_files in Hgz by done.
    by rewrite Hgz, <- list_fmap_compose.
  - done.
  - done.
Qed.

(** *** Schema tracker *)

Lemma elem_of_concat {A : Type} (x : A) (ls : list (list A)) :
  x ∈ concat ls ↔ ∃ l, x ∈ l ∧ l ∈ ls.
Proof.
  induction ls as [|l ls IH]; simpl.
  - rewrite elem_of_nil. split; [done|]. by intros (? & _ & []%elem_of_nil).
  - rewrite elem_of_app, IH. split.
    + intros [?|(l' & ? & ?)]; [exists l; split; [done|left]|].
      exists l'. split; [done|by right].
    + intros (l' & Hx & [->|?]%elem_of_cons); [by left|]. right. by exists l'.
Qed.

Lemma elem_of_cols_of (rs : list record) (c : string) :
  c ∈ cols_of rs ↔ ∃ r, r ∈ rs ∧ c ∈ keys r.
Proof.
  unfold cols_of. rewrite elem_of_union_list. split.
  - intros (X & (r & -> & Hr)%list_elem_of_fmap & Hc).
    exists r. split; [done|]. by apply elem_of_list_to_set in Hc.
  - intros (r & Hr & Hc). exists (list_to_set (keys r)). split.
    + apply list_elem_of_fmap. by exists r.
    + by apply elem_of_list_to_set.
Qed.

Lemma process_run (ds : string) (w : world) (folder : list src_file) :
  raw (fs w ds) = Some folder →
  part_openable (fs w ds) = true →
  process ds w =
  let st0 := init_state (fs w ds) w (load_ckpt (ckpt_file (fs w ds))).2 in
  match for_events ds
          (dataset_events (load_ckpt (ckpt_file (fs w ds))).1 folder) st0 with
  | Ok st => Returned (finalize ds (fs w ds) w st)
  | Exc e st =>
      if stream_broken e
      then Raised OSError (handler_raises ds (fs w ds) w (length (gz st0)) st)
      else Returned (handler ds (fs w ds) w e st)
  end.
Proof.
  intros Hraw Hopen. unfold process. rewrite Hraw, Hopen.
  by destruct (load_ckpt (ckpt_file (fs w ds))).
Qed.

(** *** Where an exception of the loop comes from *)



Lemma step_unlimited (ds : string) (ev : event) (st : run_state) :
  writes_left st = None →
  match step ds ev st with
  | Ok st' => writes_left st' = None
  | Exc e _ => ev = ERaise e
  end.
Proof.
  intros Hw. destruct ev as [r|path|e0|src|src]; try done.
  rewrite step_yield.
  destruct (note_dup_fields ds r (add_cols r st)) as (_ & _ & _ & _ & Hwl & _).
  destruct (gz_write_unlimited (json_dumps false r)
              (note_dup ds r (add_cols r st)))
    as (st2 & -> & _ & _ & _ & _ & Hw2 & _); [by rewrite Hwl|done].
Qed.

(** When no write fails, an exception that stops the loop is raised by
    a reader. *)
Lemma for_events_unlimited
    (ds : string) (evs : list event) (st st' : run_state) (e : exn) :
  writes_left st = None →
  for_events ds evs st = Exc e st' → ERaise e ∈ evs.
Proof.
  revert st. induction evs as [|ev evs IH]; intros st Hw; [done|].
  rewrite for_events_cons. pose proof (step_unlimited ds ev st Hw) as Hstep.
  destruct (step ds ev st) as [st1|e1 st1].
  - intros H. apply elem_of_cons. right. by eapply IH.
  - intros [= <- <-]. apply elem_of_cons. by left.
Qed.

Lemma json_rows_raises (path : string) (fh : list string) (e : exn) :
  ERaise e ∈ json_rows path fh → e = AttributeError.
Proof.
  induction fh as [|line fh IH]; simpl; [by intros ?%elem_of_nil|].
  destruct (negb _); [done|].
  destruct (json_loads _) as [[]|];
    rewrite elem_of_cons; intros [H|H]; try done; try by apply IH.
  all: try by apply elem_of_nil in H.
  all: by injection H as ->.
Qed.

Lemma csv_rows_raises (fh : list string) (e : exn) :
  ERaise e ∈ csv_rows fh → e = ParserError.
Proof.
  unfold csv_rows. rewrite elem_of_app. intros [H|H].
  - apply list_elem_of_In, in_flat_map in H as (chunk & _ & H).
    by apply in_map_iff in H as (r & ? & _).
  - destruct (csv_error _); [|by apply elem_of_nil in H].
    apply list_elem_of_singleton in H. by injection H as ->.
Qed.

(** The readers raise [AttributeError] and [ParserError] only. *)
Lemma dataset_events_raises
    (last_done : option string) (folder : list src_file) (e : exn) :
  ERaise e ∈ dataset_events last_done folder → stream_broken e = false.
Proof.
  unfold dataset_events. intros H.
  apply list_elem_of_In, in_flat_map in H as (src & _ & H).
  apply list_elem_of_In in H. unfold file_events in H.
  destruct (skip_by_name _ _); [by apply elem_of_nil in H|].
  destruct (reader_for _).
  - apply elem_of_app in H as [H|H]; [by apply csv_rows_raises in H as ->|].
    by apply list_elem_of_singleton in H.
  - apply elem_of_app in H as [H|H];
      [by apply json_rows_raises in H as ->|].
    by apply list_elem_of_singleton in H.
  - by apply list_elem_of_singleton in H.
Qed.

(** With no failing write the handler's [gz.close()] returns. *)
Lemma unlimited_not_broken
    (ds : string) (last_done : option string) (folder : list src_file)
    (st st' : run_state) (e : exn) :
  writes_left st = None →
  for_events ds (dataset_events last_done folder) st = Exc e st' →
  stream_broken e = false.
Proof.
  intros Hw H. eapply dataset_events_raises, for_events_unlimited; eauto.
Qed.

(** C8.  When a run without checkpoint completes, the set of column names
    it has gathered, whose size the summary reports, is exactly the set of
    the normalized keys of the records parsed from the source files of the
    folder. *)
Theorem columns_are_the_normalized_keys
    (ds : string) (w : world) (folder : list src_file) (st : run_state) :
  raw (fs w ds) = Some folder →
  ckpt_file (fs w ds) = None →
  part_openable (fs w ds) = true →
  for_events ds (dataset_events None folder) (init_state (fs w ds) w 0) = Ok st →
  (∀ c, c ∈ cols_seen st ↔
        ∃ src d k, src ∈ folder ∧ d ∈ parsed src ∧ k ∈ keys d ∧ c = norm_key k) ∧
  process ds w = Returned (finalize ds (fs w ds) w st) ∧
  console (finalize ds (fs w ds) w st) =
    console w ++ [PrintSummary ds (rows st) (bad_json st) (dup_seen st)
                               (size (cols_seen st))].
Proof.
  intros Hraw Hck Hopen Hrun. split; [|split].
  - apply for_events_ok_state in Hrun as (Hnr & Hcols & _).
    intros c. rewrite Hcols. simpl. rewrite elem_of_union, elem_of_empty.
    rewrite elem_of_cols_of. unfold dataset_events in *.
    rewrite yields_flat_map. rewrite no_raise_flat_map in Hnr.
    split.
    + intros [(r & Hr & Hc)|[]].
      apply elem_of_concat in Hr as (rs & Hr & Hrs).
      apply list_elem_of_fmap in Hrs as (src & -> & Hsrc).
      destruct (file_events_trace src (Hnr src Hsrc)) as (_ & Hy & _).
      rewrite Hy in Hr. apply list_elem_of_fmap in Hr as (d & -> & Hd).
      apply keys_clean_cols in Hc as ((k & v) & Hkv & ->).
      exists src, d, k. split; [by apply elem_of_sorted|]. split; [done|].
      split; [|done]. apply list_elem_of_fmap. by exists (k, v).
    + intros (src & d & k & Hsrc & Hd & Hk & ->). left.
      apply elem_of_sorted in Hsrc.
      destruct (file_events_trace src (Hnr src Hsrc)) as (_ & Hy & _).
      exists (clean_cols d). split.
      * apply elem_of_concat. exists (yields (file_events None src)).
        split; [rewrite Hy; by apply list_elem_of_fmap_2|].
        apply list_elem_of_fmap. by exists src.
      * apply keys_clean_cols.
        apply list_elem_of_fmap in Hk as ((k' & v) & -> & Hkv).
        by exists (k', v).
  - rewrite (process_run ds w folder Hraw Hopen), Hck. simpl. by rewrite Hrun.
  - reflexivity.
Qed.

(** *** Failure and finalization *)




(** *** Row counts on resume *)

(** What a completed run resumed after [F] with [R] rows has counted and
    written: the row count is [R] plus the number of records parsed from
    the files after [F]; the part-file holds these records after the lines
    it had at the start (none when [R] is zero, since it is then
    truncated). *)
Lemma resume_row_count
    (ds F : string) (R : Z) (w : world) (folder : list src_file) (st : run_state) :
  F ≠ "" →
  for_events ds (dataset_events (Some F) folder) (init_state (fs w ds) w R)
    = Ok st →
  rows st =
    (R + Z.of_nat (length (concat (parsed <$> after F (sorted folder)))))%Z ∧
  length (gz st) =
    (if (R =? 0)%Z then 0 else length (default [] (part_file (fs w ds))))
    + length (concat (parsed <$> after F (sorted folder))).
Proof.
  intros HF Hrun.
  destruct (for_events_written ds (dataset_events (Some F) folder)
              (init_state (fs w ds) w R)) as (k & _ & Hgz & Hrows & Hk).
  pose proof (for_events_ok_state _ _ _ _ Hrun) as (Hnr & _).
  rewrite Hrun in Hgz, Hrows. simpl in Hgz, Hrows.
  rewrite (Hk st Hrun) in Hgz, Hrows. rewrite firstn_all in Hgz.
  rewrite dataset_events_resume in Hnr, Hgz, Hrows by done.
  rewrite yields_flat_map in Hgz, Hrows.
  rewrite no_raise_flat_map in Hnr.
  rewrite yields_length in Hrows by done.
  split; [exact Hrows|].
  rewrite Hgz, length_app, length_fmap, yields_length by done.
  by destruct (R =? 0)%Z.
Qed.

(** A dataset whose part-file can be opened and written makes [process]
    return. *)
Lemma process_returns (ds : string) (w : world) :
  part_openable (fs w ds) = true → write_limit (fs w ds) = None →
  ∃ w', process ds w = Returned w'.
Proof.
  intros Hopen Hw. destruct (raw (fs w ds)) as [folder|] eqn:Hraw.
  - rewrite (process_run ds w folder Hraw Hopen). cbv zeta.
    destruct (for_events ds _ _) as [st|e st] eqn:Hrun; [by eauto|].
    apply unlimited_not_broken in Hrun as ->; [by eauto|exact Hw].
  - unfold process. rewrite Hraw. eauto.
Qed.

End Properties.

(** ** The theorems at sample inputs *)

Lemma json_rows_skips_blank_line_witness :
  Forall (λ c, PyStr.is_space c = true) (PyStr.chars Sample.line_blank) ∧
  json_rows Sample.py "t.json"
    ([Sample.line_x1] ++ Sample.line_blank :: [Sample.line_y3]) =
  json_rows Sample.py "t.json" ([Sample.line_x1] ++ [Sample.line_y3]) ∧
  for_events Sample.py "tracks"
    (json_rows Sample.py "t.json" [Sample.line_blank]) Sample.fresh
  = Ok Sample.fresh.
Proof.
  assert (Forall (λ c, PyStr.is_space c = true) (PyStr.chars Sample.line_blank))
    as H by (vm_compute; repeat constructor).
  split; [exact H|].
  apply (json_rows_skips_blank_line Sample.py
           "tracks" "t.json" Sample.line_blank [Sample.line_x1] [Sample.line_y3]
           Sample.fresh H).
Defined.

Lemma json_malformed_lines_witness :
  reader_for (name Sample.three_two) = JsonReader ∧
  skip_by_name None (name Sample.three_two) = false ∧
  (∀ line, line ∈ lines Sample.three_two →
           is_not_object Sample.py line = false) ∧
  writes_left Sample.fresh = None ∧
  ∃ st',
    for_events Sample.py "tracks"
      (file_events Sample.py None Sample.three_two)
      Sample.fresh = Ok st' ∧
    length (gz st') = 3 ∧ rows st' = 3%Z ∧ bad_json st' = 2%Z ∧
    ckpt st' = Some ("t.json", 3%Z).
Proof.
  assert (∀ line, line ∈ lines Sample.three_two →
                  is_not_object Sample.py line = false) as Hobj.
  { intros line Hin. simpl in Hin.
    repeat (apply elem_of_cons in Hin as [->|Hin]; [vm_compute; reflexivity|]).
    by apply elem_of_nil in Hin. }
  split; [reflexivity|]. split; [reflexivity|]. split; [exact Hobj|].
  split; [reflexivity|].
  destruct (json_malformed_lines_skipped_and_counted Sample.py "tracks")
    as (_ & Hfile).
  destruct (Hfile None Sample.three_two Sample.fresh
              eq_refl eq_refl Hobj eq_refl)
    as (st' & Hrun & _ & _ & _ & Hck & H32).
  destruct H32 as (Hgz & Hrows & Hbad); [reflexivity|reflexivity|].
  exists st'. rewrite Hck, Hrows. repeat split; try done.
Defined.

Lemma duplicate_sets_flag_witness :
  Sample.dumps true Sample.rec_ab = Sample.dumps true Sample.rec_ba ∧
  dup_seen Sample.after_duplicate = true ∧
  length (gz Sample.after_duplicate) = 3.
Proof.
  assert (for_events Sample.py "tracks"
            ([] ++ EYield Sample.rec_ab :: [EYield Sample.rec_c]
                ++ [EYield Sample.rec_ba]) Sample.fresh
          = Ok Sample.after_duplicate) as Hrun by (vm_compute; reflexivity).
  destruct (duplicate_sets_flag_and_is_written Sample.py
              "tracks" [] [EYield Sample.rec_c] Sample.rec_ab Sample.rec_ba
              Sample.fresh Sample.after_duplicate eq_refl Hrun)
    as (Hdup & _ & Hgz & _).
  split; [reflexivity|]. split; [exact Hdup|]. by rewrite Hgz.
Defined.

Lemma files_after_loaded_name_witness :
  "a.json" ≠ "" ∧
  dataset_events Sample.py (Some "a.json")
    Sample.repaired_folder
  = flat_map (file_events Sample.py None)
      [ {| name := "b.json"; lines := [Sample.line_y3; Sample.line_x2] |} ].
Proof.
  assert ("a.json" ≠ "") as H by discriminate.
  split; [exact H|].
  destruct (files_after_loaded_name_are_read
              Sample.py
              "tracks" "a.json" Sample.repaired_folder Sample.fresh H)
    as (_ & _ & Hev & _).
  exact Hev.
Defined.


Lemma columns_are_the_normalized_keys_witness :
  raw (fs Sample.two_files_world "tracks") = Some Sample.two_files ∧
  ckpt_file (fs Sample.two_files_world "tracks") = None ∧
  part_openable (fs Sample.two_files_world "tracks") = true ∧
  (∀ c, c ∈ cols_seen Sample.two_files_state ↔
        ∃ src d k, src ∈ Sample.two_files ∧
                   d ∈ parsed Sample.py src ∧
                   k ∈ keys d ∧ c = norm_key k).
Proof.
  assert (for_events Sample.py "tracks"
            (dataset_events Sample.py None Sample.two_files)
            (init_state (fs Sample.two_files_world "tracks")
               Sample.two_files_world 0)
          = Ok Sample.two_files_state) as Hrun by (vm_compute; reflexivity).
  split; [reflexivity|]. split; [reflexivity|]. split; [reflexivity|].
  destruct (columns_are_the_normalized_keys
              Sample.py
              "tracks" Sample.two_files_world Sample.two_files
              Sample.two_files_state eq_refl eq_refl eq_refl Hrun)
    as (Hcols & _).
  exact Hcols.
Defined.

(** ** Where the code departs from its description *)

(** C1.  A first run stops in the second file of the folder, on a line
    that is a JSON list, after it has written the first record of that
    file; the handler closes the stream, so the part-file holds two lines
    while the checkpoint records the first file and one row.  Once the
    line is removed, the second run resumes from that checkpoint and
    completes: it appends both records of the second file, and the final
    artifact has four lines, one record twice, where the checkpointed row
    count plus the records parsed from the files after the checkpointed
    one is three, which is also the row count that the summary prints. *)
Theorem resume_after_failure_repeats_rows :
  ckpt_file (fs Sample.after_failure "tracks") = Some ("a.json", 1%Z) ∧
  part_file (fs Sample.after_failure "tracks") =
    Some (Sample.dumps false <$> [[("x", JInt 1)]; [("y", JInt 3)]]) ∧
  load_ckpt (ckpt_file (fs Sample.second_run "tracks")) = (Some "a.json", 1%Z) ∧
  length (concat (parsed Sample.py <$>
                    after "a.json" (sorted Sample.repaired_folder))) = 2 ∧
  match Sample.run "tracks" Sample.second_run with
  | Returned w =>
      final_file (fs w "tracks") =
        Some (Sample.dumps false <$>
                [[("x", JInt 1)]; [("y", JInt 3)]; [("y", JInt 3)];
                 [("x", JInt 2)]]) ∧
      List.last (console w) PrintLogFile = PrintSummary "tracks" 3 0 false 2
  | Raised _ _ => False
  end.
Proof. vm_compute. repeat split. Qed.

(** C4.  The part-file of the first dataset cannot be opened: [gzip.open]
    raises, the handler runs with [gz] unbound and raises in its turn, and
    the exception leaves [process] and [run_all].  Nothing is reported, and
    the last dataset, whose folder is in order and which [process] handles
    well on its own, is never processed. *)
Theorem failed_open_stops_the_whole_run :
  is_Some (raw (fs Sample.unwritable_orders "tracks")) ∧
  match Sample.run_everything Sample.unwritable_orders with
  | Raised e w =>
      e = UnboundLocalError ∧ console w = [] ∧ logf w = [] ∧
      final_file (fs w "tracks") = None
  | Returned _ => False
  end ∧
  match Sample.run "tracks" Sample.unwritable_orders with
  | Returned w =>
      final_file (fs w "tracks") = Some [Sample.dumps false [("y", JInt 3)]]
  | Raised _ _ => False
  end.
Proof. vm_compute. repeat split. by eexists. Qed.

(** C7.  The schema check of the loop never reports a column: the reader
    has added the keys of a record to the shared set before the loop looks
    for them there.  No run adds a new-column entry to the log; in
    particular the run over one file with one record, whose column is met
    for the first time, logs nothing and counts one column. *)
Theorem new_columns_are_never_reported :
  (∀ py ds evs st,
      List.filter is_new_columns
        (log (state_of (for_events py ds evs st)))
      = List.filter is_new_columns (log st)) ∧
  match Sample.run "tracks" Sample.one_record with
  | Returned w =>
      logf w = [] ∧ console w = [PrintSummary "tracks" 1 0 false 1]
  | Raised _ _ => False
  end.
Proof.
  split.
  - intros py ds evs st.
    by destruct (for_events_invariants py ds evs st) as (H & _).
  - vm_compute. by split.
Qed.

(** C2.  The name in a checkpoint is read back stripped of the white
    space around it.  The first file of the folder is named [" a.json"]:
    the first run completes it, saves the checkpoint under that name and
    stops on the second file, [Z.json].  The second run, with that file
    repaired, reads the name back as ["a.json"].  [Z.json] has a reader and
    its name is strictly greater than the checkpointed name, against which
    it would not be skipped; but it is at most ["a.json"], and the run
    skips it: no step is taken for it, and the run completes with the one
    record of the first file.  The record of [Z.json] reaches no
    artifact. *)
Theorem resume_skips_file_after_checkpointed_name :
  ckpt_file (fs Cases.spaced_after_failure "tracks") = Some (" a.json", 1%Z) ∧
  part_file (fs Cases.spaced_after_failure "tracks")
    = Some [Sample.dumps false [("x", JInt 1)]] ∧
  String.ltb " a.json" (name Cases.spaced_file) = true ∧
  reader_for (name Cases.spaced_file) = JsonReader ∧
  skip_by_name (Some " a.json") (name Cases.spaced_file) = false ∧
  parsed Sample.py Cases.spaced_file = [[("y", JInt 3)]] ∧
  load_ckpt (ckpt_file (fs Cases.spaced_second_run "tracks"))
    = (Some "a.json", 1%Z) ∧
  file_events Sample.py
    (load_ckpt (ckpt_file (fs Cases.spaced_second_run "tracks"))).1
    Cases.spaced_file = [] ∧
  ∃ w', Sample.run "tracks" Cases.spaced_second_run = Returned w' ∧
        final_file (fs w' "tracks")
          = Some [Sample.dumps false [("x", JInt 1)]] ∧
        part_file (fs w' "tracks") = None ∧
        ckpt_file (fs w' "tracks") = None ∧
        console w' = console Cases.spaced_second_run
                     ++ [PrintSummary "tracks" 1 0 false 0].
Proof.
  repeat (split; [vm_compute; reflexivity|]).
  eexists. split; [reflexivity|]. vm_compute. repeat split.
Qed.

(** C5 without these conditions.  A file with three well-formed JSON
    lines and two malformed lines, whose second well-formed line is a
    list: the reader raises on the list and the loop over the file stops
    there, with one record written, one malformed line counted and no
    checkpoint saved.  And a file with three objects and two malformed
    lines, when the second write fails: one record is written and no
    checkpoint is saved. *)
Lemma well_formed_lines_not_all_written :
  (reader_for (name Cases.three_well_formed) = JsonReader ∧
   length (List.filter (is_well_formed Sample.py)
             (lines Cases.three_well_formed)) = 3 ∧
   length (List.filter (is_malformed Sample.py)
             (lines Cases.three_well_formed)) = 2 ∧
   ∃ st, for_events Sample.py "tracks"
           (file_events Sample.py None Cases.three_well_formed)
           Sample.fresh = Exc AttributeError st ∧
         gz st = [Sample.dumps false [("x", JInt 1)]] ∧
         rows st = 1%Z ∧ bad_json st = 1%Z ∧ ckpt st = None) ∧
  (length (objects Sample.py (lines Sample.three_two)) = 3 ∧
   length (List.filter (is_malformed Sample.py) (lines Sample.three_two)) = 2 ∧
   ∃ st, for_events Sample.py "tracks"
           (file_events Sample.py None Sample.three_two)
           Cases.one_write_left = Exc OSError st ∧
         gz st = [Sample.dumps false [("x", JInt 1)]] ∧
         rows st = 1%Z ∧ ckpt st = None).
Proof.
  split.
  - repeat (split; [vm_compute; reflexivity|]).
    eexists. split; [vm_compute; reflexivity|]. vm_compute. repeat split.
  - repeat (split; [vm_compute; reflexivity|]).
    eexists. split; [vm_compute; reflexivity|]. vm_compute. repeat split.
Qed.

(** ** Further properties of the pipeline *)

(** *** Column normalizer on whole records *)

Lemma dict_get_dict_set {V : Type} (c k : string) (v : V) (d : list (string * V)) :
  dict_get c (dict_set k v d) = if decide (k = c) then Some v else dict_get c d.
Proof.
  induction d as [|[k' v'] d IH]; simpl.
  - destruct (String.eqb_spec k c); by case_decide.
  - destruct (String.eqb_spec k' k) as [->|Hne]; simpl.
    + destruct (String.eqb_spec k c); by case_decide.
    + rewrite IH. destruct (String.eqb_spec k' c) as [->|]; [|done].
      by case_decide.
Qed.

Lemma NoDup_keys_dict_set {V : Type} (k : string) (v : V) (d : list (string * V)) :
  NoDup (keys d) → NoDup (keys (dict_set k v d)).
Proof.
  induction d as [|[k' v'] d IH]; simpl; intros Hnd.
  - apply NoDup_singleton.
  - unfold keys in *. simpl in *. apply NoDup_cons in Hnd as [Hk' Hnd].
    destruct (String.eqb_spec k' k) as [->|Hne]; simpl.
    + by apply NoDup_cons.
    + apply NoDup_cons. split; [|by apply IH].
      intros [?|?]%(keys_dict_set k v d k'); [congruence|done].
Qed.

Lemma length_dict_set {V : Type} (k : string) (v : V) (d : list (string * V)) :
  length (dict_set k v d) = if bool_decide (k ∈ keys d) then length d else S (length d).
Proof.
  induction d as [|[k' v'] d IH]; simpl; [done|].
  unfold keys in *. simpl.
  destruct (String.eqb_spec k' k) as [->|Hne]; simpl.
  - by rewrite bool_decide_eq_true_2 by left.
  - rewrite IH. destruct (bool_decide (k ∈ map fst d)) eqn:Hin.
    + apply bool_decide_eq_true in Hin. by rewrite bool_decide_eq_true_2 by by right.
    + apply bool_decide_eq_false in Hin. rewrite bool_decide_eq_false_2; [done|].
      intros [?|?]%elem_of_cons; [congruence|done].
Qed.

Lemma clean_cols_fold {V : Type} (rec acc : list (string * V)) (c : string) :
  let out := fold_left (λ out kv, dict_set (norm_key kv.1) kv.2 out) rec acc in
  (NoDup (keys acc) → NoDup (keys out)) ∧
  dict_get c out =
    match last (filter (λ kv, norm_key kv.1 = c) rec) with
    | Some kv => Some kv.2
    | None => dict_get c acc
    end ∧
  length out ≤ length acc + length rec.
Proof.
  revert acc. induction rec as [|kv rec IH]; intros acc; simpl.
  - repeat split; [done|lia].
  - destruct (IH (dict_set (norm_key kv.1) kv.2 acc)) as (Hnd & Hget & Hlen).
    split; [|split].
    + intros H. by apply Hnd, NoDup_keys_dict_set.
    + rewrite Hget, dict_get_dict_set, filter_cons.
      destruct (decide (norm_key kv.1 = c)) as [Heq|Hne].
      * rewrite last_cons. by destruct (last _).
      * done.
    + rewrite length_dict_set in Hlen. destruct (bool_decide _); lia.
Qed.

(** X1.  A cleaned record is a proper dict: its keys are distinct; when
    several keys of the record normalize to the same name, the value kept
    under that name is that of the last of them, so the cleaned record may
    hold fewer fields but never more; a name to which no key normalizes is
    absent. *)
Theorem clean_cols_last_value_wins {V : Type} (rec : list (string * V)) (c : string) :
  NoDup (keys (clean_cols rec)) ∧
  dict_get c (clean_cols rec) =
    snd <$> last (filter (λ kv, norm_key kv.1 = c) rec) ∧
  length (clean_cols rec) ≤ length rec.
Proof.
  destruct (clean_cols_fold rec [] c) as (Hnd & Hget & Hlen).
  split; [apply Hnd, NoDup_nil_2|]. split; [|exact Hlen].
  unfold clean_cols. rewrite Hget. by destruct (last _).
Qed.

Lemma dot_free_app_dot (p s : string) : ¬ PyStr.dot_free (p +:+ "." +:+ s).
Proof.
  intros H. apply H. unfold PyStr.chars. induction p as [|a p IH].
  - left.
  - rewrite app_cons. simpl. right. apply IH.
    intros Hin. apply H. unfold PyStr.chars. rewrite app_cons. simpl. by right.
Qed.

Lemma norm_key_dot_free (k : string) : PyStr.dot_free k → norm_key k = k.
Proof.
  intros Hk. destruct (norm_key_spec k) as (_ & [[_ ?]|(p & Hp)]); [done|].
  exfalso. rewrite Hp in Hk. by apply dot_free_app_dot in Hk.
Qed.

Lemma dict_set_fresh {V : Type} (k : string) (v : V) (d : list (string * V)) :
  k ∉ keys d → dict_set k v d = d ++ [(k, v)].
Proof.
  induction d as [|[k' v'] d IH]; simpl; intros Hk; [done|].
  unfold keys in *. simpl in Hk. apply not_elem_of_cons in Hk as [Hne Hk].
  destruct (String.eqb_spec k' k); [congruence|]. by rewrite IH.
Qed.

Lemma fold_dict_set_id {V : Type} (d acc : list (string * V)) :
  NoDup (keys (acc ++ d)) →
  (∀ k, k ∈ keys d → norm_key k = k) →
  fold_left (λ out kv, dict_set (norm_key kv.1) kv.2 out) d acc = acc ++ d.
Proof.
  revert acc. induction d as [|[k v] d IH]; intros acc Hnd Hfix; simpl.
  - by rewrite app_nil_r.
  - rewrite (Hfix k) by left.
    assert (k ∉ keys acc) as Hk.
    { unfold keys in *. rewrite map_app in Hnd. simpl in Hnd.
      apply NoDup_app in Hnd as (_ & Hdis & _). intros Hin.
      apply (Hdis k Hin). left. }
    rewrite dict_set_fresh by done.
    rewrite IH.
    + by rewrite <- app_assoc.
    + by rewrite <- app_assoc.
    + intros k' Hk'. apply Hfix. by right.
Qed.

(** X2.  Cleaning is idempotent: the keys of a cleaned record hold no
    separator, so cleaning it again changes neither its fields nor their
    order. *)
Theorem clean_cols_idempotent {V : Type} (rec : list (string * V)) :
  clean_cols (clean_cols rec) = clean_cols rec ∧
  (∀ k, k ∈ keys (clean_cols rec) → PyStr.dot_free k).
Proof.
  assert (∀ k, k ∈ keys (clean_cols rec) → PyStr.dot_free k) as Hfree.
  { intros k (kv & _ & ->)%keys_clean_cols. apply norm_key_spec. }
  split; [|exact Hfree].
  unfold clean_cols at 1. rewrite fold_dict_set_id; [done|..].
  - simpl. by destruct (clean_cols_fold rec [] "") as (Hnd & _); apply Hnd, NoDup_nil_2.
  - intros k Hk. by apply norm_key_dot_free, Hfree.
Qed.

(** *** Choice of the reader *)

Lemma rfind_dot_drop (s : string) (i : nat) :
  PyStr.rfind_dot s = Some i →
  ∃ t, PyStr.drop i s = String "." t ∧ String.length s = i + S (String.length t).
Proof.
  revert i. induction s as [|c s IH]; intros i; simpl; [done|].
  destruct (PyStr.rfind_dot s) as [j|] eqn:Hj.
  - intros [= <-]. destruct (IH j eq_refl) as (t & Ht & Hlen).
    exists t. simpl. split; [done|lia].
  - destruct (PyStr.is_dot c) eqn:Hc; [|done]. intros [= <-].
    apply Ascii.eqb_eq in Hc as ->.
    assert (∀ s', PyStr.rfind_dot s' = None → True) as _ by done.
    exists s. simpl. split; [done|lia].
Qed.

Lemma rfind_dot_none (s : string) :
  PyStr.dot_free s → PyStr.rfind_dot s = None.
Proof.
  induction s as [|c s IH]; [done|]. unfold PyStr.dot_free, PyStr.chars. simpl.
  intros [Hc Hs]%not_elem_of_cons. rewrite IH by done.
  unfold PyStr.is_dot. destruct (Ascii.eqb_spec c "."); congruence.
Qed.

(** The suffix of a name is empty or a dot followed by at least one
    character. *)
Lemma suffix_shape (n : string) :
  PyStr.suffix n = "" ∨ ∃ a t, PyStr.suffix n = String "." (String a t).
Proof.
  unfold PyStr.suffix. destruct (PyStr.rfind_dot n) as [i|] eqn:Hi; [|by left].
  destruct (rfind_dot_drop n i Hi) as (t & Ht & Hlen).
  destruct (_ && _) eqn:Hc; [|by left]. right.
  apply andb_true_iff in Hc as [_ Hlt]. apply Nat.ltb_lt in Hlt.
  rewrite Ht. destruct t as [|a t]; [simpl in Hlen; lia|]. by exists a, t.
Qed.

Lemma lower_char_dot (a : ascii) :
  PyStr.lower_char a = "."%char ↔ a = "."%char.
Proof.
  split; [|by intros ->].
  destruct a as [[] [] [] [] [] [] [] []]; vm_compute; congruence.
Qed.

Lemma prefix_cons (a b : ascii) (s t : string) :
  String.prefix (String a s) (String b t) =
  if decide (a = b) then String.prefix s t else false.
Proof.
  cbn [String.prefix]. destruct (ascii_dec a b); by case_decide.
Qed.

Lemma contains_json_dotted (a : ascii) (t : string) :
  PyStr.contains ".json" (String "." (String a t)) = true ↔
  String "." (String a t) ∈ json_suffixes.
Proof.
  unfold json_suffixes. cbn [PyStr.contains].
  rewrite !(prefix_cons ".").
  change (String.prefix (String "." (String a t)) "") with false.
  repeat case_decide; try congruence. rewrite !orb_false_r.
  rewrite !elem_of_cons, elem_of_nil.
  rewrite (prefix_cons a). destruct (decide (a = "j"%char)) as [->|Hj].
  2:{ split; [done|]. intros [?|[?|[?|[?|[?|[]]]]]]; congruence. }
  destruct t as [|b t]; [cbn; split; [auto|done]|].
  rewrite (prefix_cons b). destruct (decide (b = "s"%char)) as [->|Hs].
  2:{ split; [done|]. intros [?|[?|[?|[?|[?|[]]]]]]; congruence. }
  destruct t as [|c t]; [cbn; split; [auto|done]|].
  rewrite (prefix_cons c). destruct (decide (c = "o"%char)) as [->|Ho].
  2:{ split; [done|]. intros [?|[?|[?|[?|[?|[]]]]]]; congruence. }
  destruct t as [|d t]; [cbn; split; [auto|done]|].
  rewrite (prefix_cons d). destruct (decide (d = "n"%char)) as [->|Hn].
  2:{ split; [done|]. intros [?|[?|[?|[?|[?|[]]]]]]; congruence. }
  destruct t as [|e t]; [cbn; split; [auto 10|done]|].
  cbn [String.prefix]. split; [done|].
  intros [?|[?|[?|[?|[?|[]]]]]]; congruence.
Qed.

(** X3.  The reader is chosen by the lower-cased suffix of the file name:
    the delimited reader exactly for [".csv"], and the line-JSON reader
    exactly for the suffixes that are substrings of [".json"], which are
    [".j"], [".js"], [".jso"], [".json"] and the empty suffix.  So a file
    whose name has no suffix (no dot, a leading dot only, or a trailing
    dot) is not skipped but read as line-JSON. *)
Theorem reader_for_suffixes (n : string) :
  (reader_for n = CsvReader ↔ PyStr.lower (PyStr.suffix n) = ".csv") ∧
  (reader_for n = JsonReader ↔ PyStr.lower (PyStr.suffix n) ∈ json_suffixes) ∧
  (PyStr.suffix n = "" → reader_for n = JsonReader) ∧
  (PyStr.dot_free n → reader_for n = JsonReader).
Proof.
  assert (reader_for n = JsonReader ↔ PyStr.lower (PyStr.suffix n) ∈ json_suffixes)
    as Hjson.
  { unfold reader_for.
    destruct (suffix_shape n) as [->|(a & t & ->)].
    - simpl. split; [intros _; left|done].
    - cbn [PyStr.lower]. change (PyStr.lower_char ".") with "."%char.
      destruct (String.eqb_spec (String "." (String (PyStr.lower_char a) (PyStr.lower t)))
                  ".csv") as [Heq|Hne].
      + rewrite Heq. split; [done|].
        unfold json_suffixes. rewrite !elem_of_cons, elem_of_nil.
        intros [?|[?|[?|[?|[?|[]]]]]]; congruence.
      + rewrite <- contains_json_dotted.
        destruct (PyStr.contains _ _); split; congruence. }
  split; [|split; [exact Hjson|split]].
  - unfold reader_for.
    destruct (String.eqb_spec (PyStr.lower (PyStr.suffix n)) ".csv"); [done|].
    split; [|done]. by destruct (PyStr.contains _ _).
  - intros Hs. apply Hjson. rewrite Hs. left.
  - intros Hfree. apply Hjson. unfold PyStr.suffix.
    rewrite rfind_dot_none by done. left.
Qed.

(** *** The checkpoint file as text *)

Lemma rstrip_app_newline (t : string) :
  PyStr.rstrip (t +:+ String "010" EmptyString) = PyStr.rstrip t.
Proof.
  induction t as [|c t IH]; [done|].
  rewrite app_cons. simpl. by rewrite IH.
Qed.

Lemma lstrip_app_newline (s : string) :
  PyStr.lstrip (s +:+ String "010" EmptyString) =
  match PyStr.lstrip s with
  | EmptyString => EmptyString
  | t => t +:+ String "010" EmptyString
  end.
Proof.
  induction s as [|c s IH]; [done|].
  rewrite app_cons. simpl. by destruct (PyStr.is_space c).
Qed.

Lemma strip_app_newline (s : string) :
  PyStr.strip (s +:+ String "010" EmptyString) = PyStr.strip s.
Proof.
  unfold PyStr.strip. rewrite lstrip_app_newline.
  destruct (PyStr.lstrip s) as [|c t] eqn:Hl; [done|].
  by rewrite rstrip_app_newline.
Qed.

Lemma rstrip_no_space (s : string) :
  Forall (λ c, PyStr.is_space c = false) (PyStr.chars s) → PyStr.rstrip s = s.
Proof.
  induction s as [|c s IH]; [done|]. unfold PyStr.chars. simpl.
  intros [Hc Hs]%Forall_cons. rewrite IH by done.
  destruct s; by rewrite ?Hc.
Qed.

Lemma strip_no_space (s : string) :
  Forall (λ c, PyStr.is_space c = false) (PyStr.chars s) → PyStr.strip s = s.
Proof.
  intros H. unfold PyStr.strip.
  assert (PyStr.lstrip s = s) as ->; [|by apply rstrip_no_space].
  destruct s as [|c s]; [done|]. unfold PyStr.chars in H. simpl in *.
  apply Forall_cons in H as [-> _]. done.
Qed.

Lemma readline_one_line (f rest : string) :
  CkptText.one_line f →
  CkptText.readline (f +:+ String "010" rest) =
    (f +:+ String "010" EmptyString, rest).
Proof.
  intros [Hn Hr]. induction f as [|c f IH]; [done|].
  unfold PyStr.chars in *. simpl in Hn, Hr.
  apply not_elem_of_cons in Hn as [Hn1 Hn], Hr as [Hr1 Hr].
  rewrite !app_cons. simpl.
  destruct (Ascii.eqb_spec c "010"); [congruence|].
  destruct (Ascii.eqb_spec c "013"); [congruence|].
  by rewrite IH.
Qed.

(** The digits that [str] writes are read back by [int]. *)
Lemma py_digits_string_of_uint (d : Decimal.uint) :
  CkptText.py_digits (NilEmpty.string_of_uint d) true = Some d ∧
  Forall (λ c, PyStr.is_space c = false ∧ c ≠ "-"%char ∧ c ≠ "+"%char
               ∧ c ≠ "_"%char)
         (PyStr.chars (NilEmpty.string_of_uint d)).
Proof.
  unfold PyStr.chars.
  induction d as [|d [IH1 IH2]|d [IH1 IH2]|d [IH1 IH2]|d [IH1 IH2]|d [IH1 IH2]
                  |d [IH1 IH2]|d [IH1 IH2]|d [IH1 IH2]|d [IH1 IH2]|d [IH1 IH2]];
    simpl; [by split|..]; rewrite IH1; (split; [done|]);
    (constructor; [by repeat split|done]).
Qed.

Lemma py_int_string_of_uint (d : Decimal.uint) :
  CkptText.py_int (NilZero.string_of_uint d) = Some (Z.of_int (Decimal.Pos d)) ∧
  option_map (λ d', Z.of_int (Decimal.Neg d'))
    (CkptText.py_digits (NilZero.string_of_uint d) false)
    = Some (Z.of_int (Decimal.Neg d)).
Proof.
  destruct d; [by split|..];
    cbn [NilZero.string_of_uint NilEmpty.string_of_uint CkptText.py_int
         CkptText.py_digits Ascii.eqb Bool.eqb];
    rewrite (proj1 (py_digits_string_of_uint d)); by split.
Qed.

Lemma py_int_py_str (n : Z) : CkptText.py_int (CkptText.py_str n) = Some n.
Proof.
  unfold CkptText.py_str. rewrite <- (DecimalZ.of_to n) at 2.
  destruct (Z.to_int n) as [d|d]; simpl NilZero.string_of_int.
  - apply py_int_string_of_uint.
  - unfold CkptText.py_int. simpl. apply py_int_string_of_uint.
Qed.

Lemma py_str_no_space (n : Z) :
  Forall (λ c, PyStr.is_space c = false) (PyStr.chars (CkptText.py_str n)) ∧
  CkptText.py_str n ≠ "" ∧ CkptText.one_line (CkptText.py_str n).
Proof.
  assert (∀ d, Forall (λ c, PyStr.is_space c = false ∧ c ≠ "010"%char
                             ∧ c ≠ "013"%char)
                 (PyStr.chars (NilZero.string_of_uint d))
               ∧ NilZero.string_of_uint d ≠ "") as Hu.
  { intros d. unfold PyStr.chars.
    destruct d; [by split; [repeat constructor|]|..]; (split; [|done]);
      simpl; (constructor; [by repeat split|]);
      (eapply Forall_impl; [apply py_digits_string_of_uint|]);
      intros c (Hs & _); (split; [done|]);
      split; intros ->; by vm_compute in Hs. }
  unfold CkptText.py_str, CkptText.one_line.
  destruct (Z.to_int n) as [d|d]; simpl NilZero.string_of_int;
    destruct (Hu d) as [Hc Hne].
  - split; [by eapply Forall_impl; [exact Hc|]; intros c (? & _)|].
    split; [done|]. rewrite Forall_forall in Hc.
    split; intros Hin; by destruct (Hc _ Hin) as (_ & ? & ?).
  - unfold PyStr.chars in *. simpl.
    split; [constructor; [done|];
            by eapply Forall_impl; [exact Hc|]; intros c (? & _)|].
    split; [done|]. rewrite Forall_forall in Hc.
    split; intros [?|Hin]%elem_of_cons; try done;
      by destruct (Hc _ Hin) as (_ & ? & ?).
Qed.

(** X12.  What [save_ckpt] writes, [load_ckpt] reads back: for a file
    name without line end, the text [f"{filename}\n{rows}\n"] is read as
    that row count and as the file name stripped of surrounding
    whitespace, which is what the model of the checkpoint as a pair gives.
    A name with leading or trailing whitespace is thus not read back as
    it was written. *)
Theorem ckpt_text_round_trip (filename : string) (n : Z) :
  CkptText.one_line filename →
  CkptText.load_ckpt_text (Some (CkptText.save_ckpt_text filename n))
    = Some (Some (PyStr.strip filename), n) ∧
  Some (Some (PyStr.strip filename), n) = Some (load_ckpt (Some (filename, n))).
Proof.
  intros Hone. split; [|done].
  destruct (py_str_no_space n) as (Hsp & Hne & Hone').
  unfold CkptText.load_ckpt_text, CkptText.save_ckpt_text.
  rewrite readline_one_line by done.
  rewrite readline_one_line by done.
  rewrite !strip_app_newline, (strip_no_space (CkptText.py_str n)) by done.
  destruct (CkptText.py_str n) eqn:Hstr; [done|].
  rewrite <- Hstr. by rewrite py_int_py_str.
Qed.

Lemma readline_no_line_end (f : string) :
  CkptText.one_line f → CkptText.readline f = (f, EmptyString).
Proof.
  intros [Hn Hr]. induction f as [|c f IH]; [done|].
  unfold PyStr.chars in *. simpl in Hn, Hr.
  apply not_elem_of_cons in Hn as [Hn1 Hn], Hr as [Hr1 Hr]. simpl.
  destruct (Ascii.eqb_spec c "010"); [congruence|].
  destruct (Ascii.eqb_spec c "013"); [congruence|].
  by rewrite IH.
Qed.

(** X13.  A checkpoint file that holds a first line only, with or
    without its line end, is read as that name and a row count of zero. *)
Theorem ckpt_without_row_count_reads_zero (filename : string) :
  CkptText.one_line filename →
  CkptText.load_ckpt_text (Some filename) = Some (Some (PyStr.strip filename), 0%Z) ∧
  CkptText.load_ckpt_text (Some (filename +:+ String "010" EmptyString))
    = Some (Some (PyStr.strip filename), 0%Z).
Proof.
  intros Hone. unfold CkptText.load_ckpt_text. split.
  - by rewrite readline_no_line_end.
  - rewrite readline_one_line by done. simpl. by rewrite strip_app_newline.
Qed.

Lemma uint_of_char_int_char (c : ascii) (o : option Decimal.uint) (d : Decimal.uint) :
  uint_of_char c o = Some d →
  CkptText.int_char c = true ∧ ∃ d', o = Some d'.
Proof.
  destruct o as [d'|]; [|done]. intros H. split; [|by eauto].
  apply uint_of_char_spec in H.
  by destruct H as [[-> _]|[[-> _]|[[-> _]|[[-> _]|[[-> _]|[[-> _]|[[-> _]
                   |[[-> _]|[[-> _]|[-> _]]]]]]]]]].
Qed.

Lemma py_digits_chars (s : string) (b : bool) (d : Decimal.uint) :
  CkptText.py_digits s b = Some d →
  Forall (λ c, CkptText.int_char c = true) (PyStr.chars s).
Proof.
  unfold PyStr.chars. revert b d.
  induction s as [|c s IH]; intros b d; simpl; [by constructor|].
  destruct (Ascii.eqb_spec c "_") as [->|Hc].
  - destruct b; [|done]. intros H. constructor; [done|by eapply IH].
  - intros (Hc' & d' & Hd')%uint_of_char_int_char.
    constructor; [done|by eapply IH].
Qed.

Lemma py_int_chars (s : string) (n : Z) :
  CkptText.py_int s = Some n →
  Forall (λ c, CkptText.int_char c = true) (PyStr.chars s).
Proof.
  destruct s as [|c s]; [done|]. unfold CkptText.py_int, PyStr.chars.
  destruct (Ascii.eqb_spec c "-") as [->|Hm].
  { destruct (CkptText.py_digits s false) eqn:Hd; [|done]. intros _.
    simpl. constructor; [done|by eapply py_digits_chars]. }
  destruct (Ascii.eqb_spec c "+") as [->|Hp].
  { destruct (CkptText.py_digits s false) eqn:Hd; [|done]. intros _.
    simpl. constructor; [done|by eapply py_digits_chars]. }
  destruct (CkptText.py_digits (String c s) false) eqn:Hd; [|done]. intros _.
  by eapply py_digits_chars.
Qed.

(** X14.  A checkpoint file whose second line, once stripped, holds a
    character that is no digit, sign or underscore makes [load_ckpt]
    raise: [int] does not accept it. *)
Theorem ckpt_with_bad_row_count_raises (filename line2 : string) (c : ascii) :
  CkptText.one_line filename →
  CkptText.one_line line2 →
  c ∈ PyStr.chars (PyStr.strip line2) →
  CkptText.int_char c = false →
  CkptText.load_ckpt_text
    (Some (filename +:+ String "010" (line2 +:+ String "010" EmptyString)))
  = None.
Proof.
  intros Hone Hone2 Hc Hbad. unfold CkptText.load_ckpt_text.
  rewrite readline_one_line by done. rewrite readline_one_line by done.
  rewrite (strip_app_newline line2).
  destruct (PyStr.strip line2) as [|a t] eqn:Hs; [by apply elem_of_nil in Hc|].
  destruct (CkptText.py_int (String a t)) as [n|] eqn:Hn; [|done].
  apply py_int_chars in Hn. rewrite Forall_forall in Hn.
  specialize (Hn c Hc). congruence.
Qed.

(** *** Whole runs *)

Section More.

#[local] Set Default Proof Using "Type".

Variable py : library.

Local Abbreviation json_dumps := (json_dumps py).
Local Abbreviation row_hash := (row_hash py).
Local Abbreviation csv_rows := (csv_rows py).
Local Abbreviation json_rows := (json_rows py).
Local Abbreviation note_dup := (note_dup py).
Local Abbreviation step := (step py).
Local Abbreviation for_events := (for_events py).
Local Abbreviation file_events := (file_events py).
Local Abbreviation dataset_events := (dataset_events py).
Local Abbreviation process := (process py).
Local Abbreviation process_each := (process_each py).
Local Abbreviation run_all := (run_all py).
Local Abbreviation classify := (classify py).
Local Abbreviation is_malformed := (is_malformed py).
Local Abbreviation is_not_object := (is_not_object py).
Local Abbreviation objects := (objects py).
Local Abbreviation csv_records := (csv_records py).
Local Abbreviation parsed := (parsed py).
Local Abbreviation readable := (readable py).
Local Abbreviation artifact_lines := (artifact_lines py).
Local Abbreviation malformed_lines := (malformed_lines py).

Lemma artifact_lines_app (l1 l2 : list src_file) :
  artifact_lines (l1 ++ l2) = artifact_lines l1 ++ artifact_lines l2.
Proof. unfold artifact_lines. by rewrite fmap_app, concat_app, fmap_app. Qed.

Lemma bad_count_files (l : list src_file) :
  (∀ src, src ∈ l → no_raise (file_events None src)) →
  bad_count (flat_map (file_events None) l) = sum_list (malformed_lines <$> l).
Proof.
  induction l as [|src l IH]; intros H; [done|].
  simpl. rewrite bad_count_app, IH.
  - destruct (file_events_trace py src) as (_ & _ & ->); [apply H; left|].
    unfold malformed_lines. by destruct (reader_for (name src)).
  - intros src' Hsrc'. apply H. by right.
Qed.

(** The loop over a list of readable files, without failing write: it
    ends well, and has written the lines of their records and counted
    their rows and malformed lines. *)
Lemma for_files_ok (ds : string) (l : list src_file) (st : run_state) :
  (∀ src, src ∈ l → readable src) →
  writes_left st = None →
  ∃ st', for_events ds (flat_map (file_events None) l) st = Ok st' ∧
    gz st' = gz st ++ artifact_lines l ∧
    rows st' = (rows st + Z.of_nat (length (artifact_lines l)))%Z ∧
    bad_json st' = (bad_json st + Z.of_nat (sum_list (malformed_lines <$> l)))%Z.
Proof.
  intros Hread Hw.
  assert (∀ src, src ∈ l → no_raise (file_events None src)) as Hnr.
  { intros src Hsrc. by apply file_events_readable, Hread. }
  destruct (for_events_ok py ds (flat_map (file_events None) l) st)
    as (st' & Hrun & Hgz & Hrows & Hbad & _); [by apply no_raise_flat_map|done|].
  exists st'. split; [done|].
  rewrite Hgz, Hrows, Hbad, yields_flat_map, yields_files, bad_count_files by done.
  unfold artifact_lines. rewrite list_fmap_compose, !length_fmap. done.
Qed.

(** X4.  A first run over a folder in which every file can be read, with
    no checkpoint and no failing write, completes: the final artifact
    holds one line per record parsed from the files, the files taken in
    name order and the records in file order with their keys normalized;
    part-file and checkpoint are gone; and the summary reports that number
    of rows and the number of malformed lines of the line-JSON files. *)
Theorem first_run_writes_all_records
    (ds : string) (w : world) (folder : list src_file) :
  raw (fs w ds) = Some folder →
  ckpt_file (fs w ds) = None →
  part_openable (fs w ds) = true →
  write_limit (fs w ds) = None →
  (∀ src, src ∈ folder → readable src) →
  ∃ w' dup cols,
    process ds w = Returned w' ∧
    final_file (fs w' ds) = Some (artifact_lines (sorted folder)) ∧
    part_file (fs w' ds) = None ∧
    ckpt_file (fs w' ds) = None ∧
    console w' = console w ++
      [PrintSummary ds (Z.of_nat (length (artifact_lines (sorted folder))))
         (Z.of_nat (sum_list (malformed_lines <$> sorted folder))) dup cols].
Proof.
  intros Hraw Hck Hopen Hw Hread.
  rewrite (process_run py ds w folder Hraw Hopen), Hck. simpl.
  destruct (for_files_ok ds (sorted folder) (init_state (fs w ds) w 0))
    as (st & Hrun & Hgz & Hrows & Hbad).
  { intros src Hsrc. by apply Hread, elem_of_sorted. }
  { exact Hw. }
  unfold dataset_events. rewrite Hrun.
  exists (finalize ds (fs w ds) w st), (dup_seen st), (size (cols_seen st)).
  split; [done|]. simpl. unfold upd. rewrite String.eqb_refl. simpl.
  rewrite Hgz, Hrows, Hbad. simpl. by rewrite Z.add_0_l.
Qed.

(** *** Name order and resume *)

Lemma leb_trans (a b c : string) :
  String.leb a b = true → String.leb b c = true → String.leb a c = true.
Proof.
  intros H1 H2. apply Is_true_true.
  apply Is_true_true in H1, H2.
  exact (transitivity (R := String.le) H1 H2).
Qed.

Lemma insert_by_name_sorted (f : src_file) (l : list src_file) :
  StronglySorted (λ a b, String.leb (name a) (name b) = true) l →
  StronglySorted (λ a b, String.leb (name a) (name b) = true) (insert_by_name f l).
Proof.
  induction 1 as [|g l Hl IH Hg]; simpl.
  - by repeat constructor.
  - destruct (String.leb (name f) (name g)) eqn:Hfg.
    + constructor; [by constructor|]. constructor; [done|].
      eapply Forall_impl; [exact Hg|]. intros h Hh. by eapply leb_trans.
    + constructor; [done|].
      assert (String.leb (name g) (name f) = true) as Hgf.
      { destruct (String.leb_total (name f) (name g)); congruence. }
      rewrite insert_by_name_perm. by constructor.
Qed.

(** The files are taken in ascending order of their names. *)
Lemma sorted_sorted (folder : list src_file) :
  StronglySorted (λ a b, String.leb (name a) (name b) = true) (sorted folder).
Proof.
  induction folder as [|f folder IH]; simpl; [constructor|].
  by apply insert_by_name_sorted.
Qed.

Lemma upto_after (F : string) (l : list src_file) :
  StronglySorted (λ a b, String.leb (name a) (name b) = true) l →
  upto F l ++ after F l = l.
Proof.
  unfold upto, after. induction 1 as [|g l Hl IH Hg]; simpl; [done|].
  rewrite ltb_negb_leb. destruct (String.leb (name g) F) eqn:HgF; simpl.
  - by rewrite IH.
  - assert (List.filter (λ src, String.leb (name src) F) l = []) as Hnone.
    { clear IH Hl. induction l as [|h l IHl]; simpl; [done|].
      apply Forall_cons in Hg as [Hgh Hg].
      destruct (String.leb (name h) F) eqn:HhF.
      - by rewrite (leb_trans _ _ _ Hgh HhF) in HgF.
      - by apply IHl. }
    rewrite Hnone in IH |- *. simpl in *. by rewrite IH.
Qed.

(** X5.  A resumed run is exact when it starts at a file boundary: with a
    checkpoint naming [F], a part-file that holds the lines of the files
    up to [F] and a checkpointed row count equal to their number, a run in
    which the files after [F] can be read and no write fails completes, and
    its final artifact is the one that a first run over the whole folder
    writes; the summary reports the number of its lines. *)
Theorem resume_at_file_boundary_is_exact
    (ds F : string) (R : Z) (w : world) (folder : list src_file) :
  raw (fs w ds) = Some folder →
  load_ckpt (ckpt_file (fs w ds)) = (Some F, R) →
  F ≠ "" →
  part_file (fs w ds) = Some (artifact_lines (upto F (sorted folder))) →
  R = Z.of_nat (length (artifact_lines (upto F (sorted folder)))) →
  part_openable (fs w ds) = true →
  write_limit (fs w ds) = None →
  (∀ src, src ∈ folder → String.ltb F (name src) = true → readable src) →
  ∃ w' bad dup cols,
    process ds w = Returned w' ∧
    final_file (fs w' ds) = Some (artifact_lines (sorted folder)) ∧
    part_file (fs w' ds) = None ∧
    ckpt_file (fs w' ds) = None ∧
    console w' = console w ++
      [PrintSummary ds (Z.of_nat (length (artifact_lines (sorted folder))))
         bad dup cols].
Proof.
  intros Hraw Hload HF Hpart HR Hopen Hw Hread.
  rewrite (process_run py ds w folder Hraw Hopen), Hload. simpl.
  rewrite dataset_events_resume by done.
  destruct (for_files_ok ds (after F (sorted folder)) (init_state (fs w ds) w R))
    as (st & Hrun & Hgz & Hrows & _).
  { intros src [Hsrc Hlt]%list_elem_of_In%filter_In.
    apply Hread; [by apply elem_of_sorted, list_elem_of_In|done]. }
  { exact Hw. }
  rewrite Hrun.
  exists (finalize ds (fs w ds) w st), (bad_json st), (dup_seen st),
         (size (cols_seen st)).
  split; [done|]. simpl. unfold upd. rewrite String.eqb_refl. simpl.
  assert (gz (init_state (fs w ds) w R) = artifact_lines (upto F (sorted folder)))
    as Hinit.
  { simpl. rewrite Hpart. simpl. destruct (R =? 0)%Z eqn:HR0; [|done].
    apply Z.eqb_eq in HR0. simpl.
    destruct (artifact_lines (upto F (sorted folder))); [done|].
    simpl in HR. lia. }
  rewrite Hgz, Hrows, Hinit. simpl rows. rewrite HR.
  rewrite <- artifact_lines_app, upto_after by apply sorted_sorted.
  repeat split. do 2 f_equal.
  rewrite <- (upto_after F (sorted folder)) at 3 by apply sorted_sorted.
  rewrite artifact_lines_app, length_app. f_equal. lia.
Qed.

(** *** Checkpoint and part-file *)

Lemma step_covered (ds : string) (ev : event) (st : run_state) :
  (rows st ≤ Z.of_nat (length (gz st)))%Z →
  (∀ n r, ckpt st = Some (n, r) → (r ≤ Z.of_nat (length (gz st)))%Z) →
  let st' := state_of (step ds ev st) in
  (rows st' ≤ Z.of_nat (length (gz st')))%Z ∧
  (∀ n r, ckpt st' = Some (n, r) → (r ≤ Z.of_nat (length (gz st')))%Z).
Proof.
  intros Hrows Hck. cbv zeta. destruct ev as [r|path|e|src|src]; try done.
  - rewrite step_yield.
    destruct (note_dup_fields py ds r (add_cols r st))
      as (Hr & _ & Hg & _ & _ & Hc).
    change (rows (add_cols r st)) with (rows st) in Hr.
    change (gz (add_cols r st)) with (gz st) in Hg.
    change (ckpt (add_cols r st)) with (ckpt st) in Hc.
    unfold gz_write. remember (note_dup ds r (add_cols r st)) as st1.
    destruct (writes_left st1) as [[|k]|]; simpl; rewrite ?Hr, ?Hg, ?Hc;
      rewrite ?length_app; simpl; (split; [lia|]);
      intros n r' Hn; specialize (Hck n r' Hn); lia.
  - simpl. split; [done|]. intros n r [= _ <-]. done.
Qed.

Lemma for_events_covered (ds : string) (evs : list event) (st : run_state) :
  (rows st ≤ Z.of_nat (length (gz st)))%Z →
  (∀ n r, ckpt st = Some (n, r) → (r ≤ Z.of_nat (length (gz st)))%Z) →
  let st' := state_of (for_events ds evs st) in
  (rows st' ≤ Z.of_nat (length (gz st')))%Z ∧
  (∀ n r, ckpt st' = Some (n, r) → (r ≤ Z.of_nat (length (gz st')))%Z).
Proof.
  revert st. induction evs as [|ev evs IH]; intros st Hrows Hck; [done|].
  rewrite for_events_cons.
  pose proof (step_covered ds ev st Hrows Hck) as [Hrows' Hck'].
  destruct (step ds ev st) as [st1|e st1]; [by apply IH|done].
Qed.

(** X6.  As long as no write fails, the checkpoint never runs ahead of
    the part-file: if the checkpoint of a dataset counts no more rows than
    its part-file holds lines, the same is true after [process] has run on
    the dataset, whether the run completes or an exception of a reader
    stops it.  So the rows that a checkpoint accounts for are then never
    missing from the part-file that the next run appends to. *)
Theorem checkpoint_never_ahead_of_part_file (ds : string) (w : world) :
  write_limit (fs w ds) = None →
  ckpt_covered (fs w ds) → ckpt_covered (fs (world_of (process ds w)) ds).
Proof.
  intros Hw Hcov. unfold process.
  destruct (raw (fs w ds)) as [folder|] eqn:Hraw; [|done].
  destruct (load_ckpt (ckpt_file (fs w ds))) as [last_done R] eqn:Hload.
  destruct (part_openable (fs w ds)); simpl; [|done].
  assert (let st := init_state (fs w ds) w R in
          (rows st ≤ Z.of_nat (length (gz st)))%Z ∧
          (∀ n r, ckpt st = Some (n, r) → (r ≤ Z.of_nat (length (gz st)))%Z))
    as [Hrows Hck].
  { simpl. unfold load_ckpt in Hload.
    destruct (ckpt_file (fs w ds)) as [[line1 R']|] eqn:Hc.
    - injection Hload as _ <-.
      destruct (Hcov line1 R' Hc) as (p & Hp & HR). rewrite Hp. simpl.
      destruct (R' =? 0)%Z eqn:H0; simpl.
      + apply Z.eqb_eq in H0 as ->. split; [done|]. by intros n r [= _ <-].
      + split; [done|]. by intros n r [= _ <-].
    - injection Hload as _ <-. by simpl. }
  pose proof (for_events_covered ds (dataset_events last_done folder)
                (init_state (fs w ds) w R) Hrows Hck) as [_ Hck'].
  destruct (for_events ds _ _) as [st|e st] eqn:Hrun; simpl in Hck'.
  - intros n r. simpl. unfold upd. by rewrite String.eqb_refl.
  - apply (unlimited_not_broken py) in Hrun as ->; [|exact Hw].
    intros n r. simpl. unfold upd. rewrite String.eqb_refl. simpl.
    intros Hn. exists (gz st). split; [done|]. by eapply Hck'.
Qed.

(** *** Datasets do not interfere *)

Lemma step_without_log (ds : string) (ev : event) (st : run_state) :
  outcome_without_log (step ds ev (without_log st)) =
  outcome_without_log (step ds ev st).
Proof.
  destruct ev as [r|path|e|src|src]; try done.
  rewrite !step_yield. unfold note_dup. simpl.
  destruct (negb (dup_seen st) && bool_decide (_ ∈ hashes st)); simpl;
    unfold gz_write; simpl; by destruct (writes_left st) as [[|k]|].
Qed.

Lemma for_events_without_log (ds : string) (evs : list event) (st : run_state) :
  outcome_without_log (for_events ds evs (without_log st)) =
  outcome_without_log (for_events ds evs st).
Proof.
  revert st. induction evs as [|ev evs IH]; intros st; [done|].
  rewrite !for_events_cons. pose proof (step_without_log ds ev st) as Hstep.
  destruct (step ds ev st) as [st1|e st1],
           (step ds ev (without_log st)) as [st2|e' st2]; simpl in Hstep;
    try done.
  - assert (without_log st2 = without_log st1) as Hst by congruence.
    rewrite <- (IH st1), <- (IH st2). by rewrite Hst.
Qed.

(** The files that [process] leaves for a dataset depend on the files of
    that dataset only. *)
Lemma process_fs_local (ds : string) (w1 w2 : world) :
  fs w1 ds = fs w2 ds →
  fs (world_of (process ds w1)) ds = fs (world_of (process ds w2)) ds ∧
  (∀ w', process ds w1 = Returned w' → ∃ w'', process ds w2 = Returned w'').
Proof.
  intros Heq. unfold process. rewrite <- Heq.
  destruct (raw (fs w1 ds)) as [folder|]; [|by eauto].
  destruct (load_ckpt (ckpt_file (fs w1 ds))) as [last_done R].
  destruct (part_openable (fs w1 ds)); simpl; [|done].
  assert (without_log (init_state (fs w1 ds) w1 R)
          = without_log (init_state (fs w1 ds) w2 R)) as Hinit by done.
  pose proof (for_events_without_log ds (dataset_events last_done folder)
                (init_state (fs w1 ds) w1 R)) as H1.
  pose proof (for_events_without_log ds (dataset_events last_done folder)
                (init_state (fs w1 ds) w2 R)) as H2.
  rewrite Hinit, H2 in H1.
  destruct (for_events ds _ (init_state (fs w1 ds) w1 R)) as [s1|e1 s1],
           (for_events ds _ (init_state (fs w1 ds) w2 R)) as [s2|e2 s2];
    simpl in H1; try done.
  - assert (without_log s1 = without_log s2) as Hs by congruence.
    split; [|by eauto]. simpl. unfold upd.
    rewrite !String.eqb_refl.
    pose proof (f_equal gz Hs) as Hg. simpl in Hg. by rewrite Hg.
  - assert (without_log s1 = without_log s2) as Hs by congruence.
    assert (e1 = e2) as -> by congruence.
    pose proof (f_equal gz Hs) as Hg. pose proof (f_equal ckpt Hs) as Hc.
    simpl in Hg, Hc.
    destruct (stream_broken e2); (split; [|by eauto]); simpl; unfold upd;
      rewrite !String.eqb_refl; by rewrite Hg, Hc.
Qed.

(** [process] leaves the files of the other datasets as they are. *)
Lemma process_fs_other (ds ds' : string) (w : world) :
  ds' ≠ ds → fs (world_of (process ds w)) ds' = fs w ds'.
Proof.
  intros Hne. unfold process.
  destruct (raw (fs w ds)) as [folder|]; [|done].
  destruct (load_ckpt (ckpt_file (fs w ds))) as [last_done R].
  destruct (part_openable (fs w ds)); simpl; [|done].
  destruct (for_events ds _ _) as [st|e st]; [|destruct (stream_broken e)];
    simpl; unfold upd; by destruct (String.eqb_spec ds' ds).
Qed.

Lemma process_each_isolated (dss : list string) (w : world) :
  NoDup dss →
  (∀ d, d ∈ dss →
        part_openable (fs w d) = true ∧ write_limit (fs w d) = None) →
  ∃ w', process_each dss w = Returned w' ∧
    (∀ d, d ∈ dss → fs w' d = fs (world_of (process d w)) d) ∧
    (∀ d, d ∉ dss → fs w' d = fs w d).
Proof.
  revert w. induction dss as [|ds dss IH]; intros w Hnd Hopen.
  - exists w. split; [done|]. split; [by intros d []%elem_of_nil|done].
  - apply NoDup_cons in Hnd as [Hds Hnd]. simpl.
    destruct (process_returns py ds w) as (w1 & Hw1);
      [apply Hopen; left..|].
    rewrite Hw1.
    assert (∀ d, d ≠ ds → fs w1 d = fs w d) as Hother.
    { intros d Hd. pose proof (process_fs_other ds d w Hd) as H.
      by rewrite Hw1 in H. }
    destruct (IH w1 Hnd) as (w' & Hrun & Hin & Hout).
    { intros d Hd. rewrite Hother; [apply Hopen; by right|]. by intros ->. }
    exists w'. split; [done|]. split.
    + intros d [->|Hd]%elem_of_cons.
      * rewrite Hout by done. by rewrite Hw1.
      * rewrite Hin by done. apply process_fs_local.
        apply Hother. by intros ->.
    + intros d [Hd1 Hd2]%not_elem_of_cons. rewrite Hout by done.
      by apply Hother.
Qed.

(** X7.  When the part-file of every dataset can be opened and no write
    fails, [run_all] returns without raising, whatever the readers meet in
    the source files, and it leaves for each of the four datasets exactly
    the files that [process] leaves when run on that dataset alone: a
    dataset that a reader's exception stops changes nothing for the others,
    and the files of any other name are untouched.  (A checkpoint is
    here the name and the row count that [load_ckpt] reads from it.) *)
Theorem run_all_isolates_datasets (w : world) :
  (∀ d, d ∈ datasets →
        part_openable (fs w d) = true ∧ write_limit (fs w d) = None) →
  ∃ w', run_all w = Returned w' ∧
    (∀ d, d ∈ datasets → fs w' d = fs (world_of (process d w)) d) ∧
    (∀ d, d ∉ datasets → fs w' d = fs w d).
Proof.
  intros Hopen. unfold run_all.
  destruct (process_each_isolated datasets w) as (w' & Hrun & Hin & Hout).
  { unfold datasets. repeat (apply NoDup_cons; split;
      [rewrite ?elem_of_cons, elem_of_nil; intros H; intuition discriminate|]).
    apply NoDup_nil_2. }
  { exact Hopen. }
  rewrite Hrun. eexists. split; [reflexivity|]. by split.
Qed.

(** *** Duplicate flag *)

Lemma note_dup_count (ds : string) (r : record) (st : run_state) :
  length (List.filter is_duplicate_entry (log (note_dup ds r st))) =
  length (List.filter is_duplicate_entry (log st)) +
  (if negb (dup_seen st) && bool_decide (row_hash r ∈ hashes st) then 1 else 0).
Proof.
  unfold note_dup. destruct (negb (dup_seen st) && _); simpl; [|lia].
  by rewrite List.filter_app, length_app.
Qed.

Lemma step_yield_ok (ds : string) (r : record) (st st' : run_state) :
  step ds (EYield r) st = Ok st' →
  hashes st' = {[row_hash r]} ∪ hashes st ∧
  dup_seen st' = dup_seen st || bool_decide (row_hash r ∈ hashes st) ∧
  length (List.filter is_duplicate_entry (log st')) =
    length (List.filter is_duplicate_entry (log st)) +
    (if negb (dup_seen st) && bool_decide (row_hash r ∈ hashes st) then 1 else 0).
Proof.
  rewrite step_yield.
  destruct (note_dup_spec py ds r (add_cols r st)) as (Hh & Hd & _).
  pose proof (note_dup_count ds r (add_cols r st)) as Hc.
  change (hashes (add_cols r st)) with (hashes st) in *.
  change (dup_seen (add_cols r st)) with (dup_seen st) in *.
  change (log (add_cols r st)) with (log st) in *.
  unfold gz_write. remember (note_dup ds r (add_cols r st)) as st1.
  destruct (writes_left st1) as [[|k]|]; [done|..];
    intros [= <-]; simpl; by rewrite Hh, Hd, Hc.
Qed.

Lemma not_NoDup_cons (h : string) (hs : list string) :
  ¬ NoDup (h :: hs) ↔ h ∈ hs ∨ ¬ NoDup hs.
Proof.
  rewrite NoDup_cons. destruct (decide (h ∈ hs)); [|tauto].
  split; [by left|]. intros _ [? _]. done.
Qed.

Lemma for_events_dup (ds : string) (evs : list event) (st st' : run_state) :
  for_events ds evs st = Ok st' →
  hashes st' = list_to_set (row_hash <$> yields evs) ∪ hashes st ∧
  (dup_seen st' = true ↔
     dup_seen st = true ∨ ¬ NoDup (row_hash <$> yields evs) ∨
     ∃ h, h ∈ row_hash <$> yields evs ∧ h ∈ hashes st) ∧
  length (List.filter is_duplicate_entry (log st')) =
    length (List.filter is_duplicate_entry (log st)) +
    (if negb (dup_seen st) && dup_seen st' then 1 else 0).
Proof.
  revert st. induction evs as [|ev evs IH]; intros st.
  - intros [= <-]. simpl. split; [set_solver|]. split.
    + split; [by left|]. intros [?|[Hn|(h & []%elem_of_nil & _)]]; [done|].
      destruct Hn. constructor.
    + destruct (dup_seen st); simpl; lia.
  - rewrite for_events_cons.
    destruct (step ds ev st) as [st1|] eqn:Hstep; [|done].
    intros (Hh & Hd & Hc)%IH.
    destruct ev as [r|path|e|src|src].
    + apply step_yield_ok in Hstep as (Hh1 & Hd1 & Hc1).
      change (yields (EYield r :: evs)) with (r :: yields evs).
      rewrite fmap_cons. split; [|split].
      * rewrite Hh, Hh1. set_solver.
      * rewrite Hd, Hd1, Hh1, not_NoDup_cons.
        destruct (dup_seen st); simpl; [by split; auto|].
        rewrite bool_decide_eq_true. split.
        -- intros [Hin|[Hn|(h & Hin & [->%elem_of_singleton|HH]%elem_of_union)]].
           ++ right. right. exists (row_hash r). split; [left|done].
           ++ right. left. by right.
           ++ right. left. by left.
           ++ right. right. exists h. split; [by right|done].
        -- intros [?|[[Hin|Hn]|(h & [->|Hin]%elem_of_cons & HH)]]; [done|..].
           ++ right. right. exists (row_hash r). split; [done|].
              apply elem_of_union. left. by apply elem_of_singleton.
           ++ right. by left.
           ++ by left.
           ++ right. right. exists h. split; [done|].
              apply elem_of_union. by right.
      * rewrite Hc, Hc1, Hd1.
        assert (dup_seen st1 = true → dup_seen st' = true) as Hmono.
        { intros H1. apply Hd. by left. }
        rewrite Hd1 in Hmono.
        destruct (dup_seen st), (bool_decide (row_hash r ∈ hashes st)),
                 (dup_seen st') eqn:Hd'; simpl in *; lia.
    + injection Hstep as <-. simpl in *.
      rewrite List.filter_app, length_app in Hc. simpl in Hc.
      split; [done|]. split; [done|]. lia.
    + done.
    + injection Hstep as <-. simpl in *.
      rewrite List.filter_app, length_app in Hc. simpl in Hc.
      split; [done|]. split; [done|]. lia.
    + injection Hstep as <-. by simpl in *.
Qed.

(** X8.  In a run of the loop that starts with no digest seen and ends
    without exception, the duplicate flag is set exactly when two of the
    records met have the same digest, the digests kept are those of all
    records met, and the duplicate entry is written to the log once when
    the flag is set and never otherwise. *)
Theorem duplicate_flag_iff_digest_repeats
    (ds : string) (evs : list event) (st st' : run_state) :
  for_events ds evs st = Ok st' →
  dup_seen st = false →
  hashes st = ∅ →
  (dup_seen st' = true ↔ ¬ NoDup (row_hash <$> yields evs)) ∧
  hashes st' = list_to_set (row_hash <$> yields evs) ∧
  length (List.filter is_duplicate_entry (log st')) =
    length (List.filter is_duplicate_entry (log st)) +
    (if dup_seen st' then 1 else 0).
Proof.
  intros (Hh & Hd & Hc)%for_events_dup Hd0 HH0.
  rewrite Hd0, HH0 in *. simpl in Hc. split; [|split].
  - rewrite Hd. split.
    + intros [?|[?|(h & _ & []%elem_of_empty)]]; done.
    + intros Hn. right. by left.
  - rewrite Hh. set_solver.
  - exact Hc.
Qed.

(** *** Readers that raise *)

Lemma json_rows_app (path : string) (pre rest : list string) :
  (∀ line, line ∈ pre → is_not_object line = false) →
  json_rows path (pre ++ rest) = json_rows path pre ++ json_rows path rest.
Proof.
  induction pre as [|l pre IH]; intros H; [done|].
  rewrite <- app_comm_cons, !json_rows_cons, IH.
  - pose proof (H l ltac:(left)) as Hl. unfold is_not_object in Hl.
    by destruct (classify l).
  - intros line Hline. apply H. by right.
Qed.

Lemma step_ckpt_same (ds : string) (ev : event) (st : run_state) :
  (∀ src, ev ≠ ESaveCkpt src) → ckpt (state_of (step ds ev st)) = ckpt st.
Proof.
  intros Hev. destruct ev as [r|path|e|src|src]; try done.
  - rewrite step_yield.
    destruct (note_dup_fields py ds r (add_cols r st)) as (_ & _ & _ & _ & _ & Hc).
    change (ckpt (add_cols r st)) with (ckpt st) in Hc.
    unfold gz_write. remember (note_dup ds r (add_cols r st)) as st1.
    by destruct (writes_left st1) as [[|k]|].
  - by destruct (Hev src).
Qed.

Lemma for_events_ckpt_same (ds : string) (evs : list event) (st : run_state) :
  (∀ src, ESaveCkpt src ∉ evs) →
  ckpt (state_of (for_events ds evs st)) = ckpt st.
Proof.
  revert st. induction evs as [|ev evs IH]; intros st H; [done|].
  rewrite for_events_cons.
  assert (∀ src, ev ≠ ESaveCkpt src) as Hev.
  { intros src ->. apply (H src). left. }
  pose proof (step_ckpt_same ds ev st Hev) as Hc.
  destruct (step ds ev st) as [st1|e st1]; [|done].
  simpl in Hc. rewrite <- Hc. apply IH. intros src Hsrc. apply (H src). by right.
Qed.

Lemma json_rows_no_save (path : string) (fh : list string) (src : string) :
  ESaveCkpt src ∉ json_rows path fh.
Proof.
  induction fh as [|l fh IH]; [apply not_elem_of_nil|].
  rewrite json_rows_cons.
  destruct (classify l); try done;
    intros [?|?]%elem_of_cons; try done. by apply elem_of_nil in H.
Qed.

Lemma chunks_no_save (chunks : list (list record)) (src : string) :
  ESaveCkpt src ∉
    flat_map (λ chunk, map (λ r, EYield (clean_cols r)) chunk) chunks.
Proof.
  intros Hin. apply list_elem_of_In, in_flat_map in Hin as (chunk & _ & Hin).
  by apply in_map_iff in Hin as (r & ? & _).
Qed.

(** X9.  A line of a line-JSON file that decodes to a JSON value other
    than an object is not skipped: [clean_cols] raises on it and the
    exception leaves the reader.  With no failing write, the loop over the
    file has by then written the objects of the lines before it and
    counted the malformed ones among them; it stops there with the
    exception, reads none of the lines after it, and does not checkpoint
    the file. *)
Theorem json_non_object_line_stops_the_run
    (ds : string) (last_done : option string) (src : src_file)
    (pre post : list string) (line : string) (st : run_state) :
  reader_for (name src) = JsonReader →
  skip_by_name last_done (name src) = false →
  lines src = pre ++ line :: post →
  (∀ l, l ∈ pre → is_not_object l = false) →
  is_not_object line = true →
  writes_left st = None →
  ∃ st', for_events ds (file_events last_done src) st = Exc AttributeError st' ∧
    gz st' = gz st ++ (json_dumps false ∘ clean_cols <$> objects pre) ∧
    rows st' = (rows st + Z.of_nat (length (objects pre)))%Z ∧
    bad_json st' =
      (bad_json st + Z.of_nat (length (List.filter is_malformed pre)))%Z ∧
    ckpt st' = ckpt st.
Proof.
  intros Hr Hs Hlines Hpre Hline Hw. unfold file_events.
  rewrite Hs, Hr, Hlines, json_rows_app by done.
  assert (json_rows (name src) (line :: post) = [ERaise AttributeError]) as ->.
  { rewrite json_rows_cons. unfold is_not_object in Hline.
    by destruct (classify line). }
  destruct (json_rows_trace py (name src) pre Hpre) as (Hnr & Hy & Hb).
  destruct (for_events_ok py ds _ st Hnr Hw)
    as (st1 & H1 & Hgz & Hrows & Hbad & _).
  pose proof (for_events_ckpt_same ds (json_rows (name src) pre) st
                (json_rows_no_save _ _)) as Hck.
  rewrite H1 in Hck. simpl in Hck.
  rewrite <- app_assoc, for_events_app, H1. simpl.
  exists st1. split; [done|].
  by rewrite Hgz, Hrows, Hbad, Hy, Hb, length_fmap, <- list_fmap_compose.
Qed.

(** X10.  When the parser of a delimited file raises, the rows of the
    chunks it had returned before are already written and counted (with
    no failing write); the loop stops with the exception and the file is
    not checkpointed. *)
Theorem csv_parser_error_stops_the_run
    (ds : string) (last_done : option string) (src : src_file) (st : run_state) :
  reader_for (name src) = CsvReader →
  skip_by_name last_done (name src) = false →
  csv_error (read_csv py (lines src)) = true →
  writes_left st = None →
  ∃ st', for_events ds (file_events last_done src) st = Exc ParserError st' ∧
    gz st' = gz st ++ (json_dumps false ∘ clean_cols <$> csv_records (lines src)) ∧
    rows st' = (rows st + Z.of_nat (length (csv_records (lines src))))%Z ∧
    bad_json st' = bad_json st ∧
    ckpt st' = ckpt st.
Proof.
  intros Hr Hs Herr Hw. unfold file_events, csv_rows. rewrite Hs, Hr, Herr.
  destruct (chunks_trace (csv_chunks (read_csv py (lines src))))
    as (Hy & Hb & Hnr).
  destruct (for_events_ok py ds _ st Hnr Hw)
    as (st1 & H1 & Hgz & Hrows & Hbad & _).
  assert (ckpt st1 = ckpt st) as Hck.
  { pose proof (for_events_ckpt_same ds _ st
                  (chunks_no_save (csv_chunks (read_csv py (lines src))))) as H.
    by rewrite H1 in H. }
  rewrite <- app_assoc, for_events_app, H1. simpl.
  exists st1. split; [done|].
  rewrite Hgz, Hrows, Hbad, Hy, Hb, length_fmap, <- list_fmap_compose.
  unfold csv_records. repeat split; try done. lia.
Qed.

(** *** Statistics of a resumed run *)

(** X11.  The column set and the duplicate flag are not restored from the
    checkpoint: when a run resumed after [F] completes, the columns it
    reports are the normalized keys of the records of the files after [F]
    only, and its duplicate flag is set exactly when two of these records
    have the same digest; the records written before the checkpoint play
    no part in either. *)
Theorem resumed_run_statistics_cover_new_files_only
    (ds F : string) (R : Z) (w : world) (folder : list src_file) (st : run_state) :
  F ≠ "" →
  for_events ds (dataset_events (Some F) folder) (init_state (fs w ds) w R)
    = Ok st →
  (∀ c, c ∈ cols_seen st ↔
        ∃ src d k, src ∈ folder ∧ String.ltb F (name src) = true ∧
                   d ∈ parsed src ∧ k ∈ keys d ∧ c = norm_key k) ∧
  (dup_seen st = true ↔
     ¬ NoDup (row_hash ∘ clean_cols <$>
                concat (parsed <$> after F (sorted folder)))).
Proof.
  intros HF Hrun.
  pose proof (for_events_ok_state py _ _ _ _ Hrun) as (Hnr & Hcols & _).
  pose proof (for_events_dup _ _ _ _ Hrun) as (_ & Hdup & _).
  rewrite dataset_events_resume in Hnr, Hcols, Hdup by done.
  rewrite yields_flat_map in Hcols, Hdup. rewrite no_raise_flat_map in Hnr.
  rewrite yields_files in Hcols, Hdup by done.
  split.
  - intros c. rewrite Hcols. simpl.
    rewrite elem_of_union, elem_of_empty, elem_of_cols_of. split.
    + intros [(r & Hr & Hc)|[]].
      apply list_elem_of_fmap in Hr as (d & -> & Hd).
      apply elem_of_concat in Hd as (ds' & Hd & Hds).
      apply list_elem_of_fmap in Hds as (src & -> & Hsrc).
      apply list_elem_of_In, filter_In in Hsrc as [Hsrc Hlt].
      apply keys_clean_cols in Hc as ((k & v) & Hkv & ->).
      exists src, d, k.
      split; [by apply elem_of_sorted, list_elem_of_In|].
      split; [done|]. split; [done|]. split; [|done].
      apply list_elem_of_fmap. by exists (k, v).
    + intros (src & d & k & Hsrc & Hlt & Hd & Hk & ->). left.
      exists (clean_cols d). split.
      * apply list_elem_of_fmap_2, elem_of_concat. exists (parsed src).
        split; [done|]. apply list_elem_of_fmap_2, list_elem_of_In, filter_In.
        split; [by apply list_elem_of_In, elem_of_sorted|done].
      * apply keys_clean_cols.
        apply list_elem_of_fmap in Hk as ((k' & v) & -> & Hkv).
        by exists (k', v).
  - rewrite Hdup. simpl. rewrite <- list_fmap_compose. split.
    + intros [?|[?|(h & _ & []%elem_of_empty)]]; done.
    + intros Hn. right. by left.
Qed.

(** *** What a resumed run leaves *)

(** X15.  A run resumed after [F] with a checkpointed row count [R], in
    which the files after [F] can be read and no write fails, completes.
    Its final artifact is the text that the part-file held at the start
    when [R] is not zero (the part-file is appended to; a missing one
    counts as empty) and nothing when [R] is zero (the part-file is
    truncated), followed by the lines of the records of the files after
    [F]; the summary reports [R] plus the number of these new lines,
    whatever the part-file held. *)
Theorem resumed_run_appends_to_part_file
    (ds F : string) (R : Z) (w : world) (folder : list src_file) :
  raw (fs w ds) = Some folder →
  load_ckpt (ckpt_file (fs w ds)) = (Some F, R) →
  F ≠ "" →
  part_openable (fs w ds) = true →
  write_limit (fs w ds) = None →
  (∀ src, src ∈ folder → String.ltb F (name src) = true → readable src) →
  ∃ w' bad dup cols,
    process ds w = Returned w' ∧
    final_file (fs w' ds) =
      Some ((if (R =? 0)%Z then [] else default [] (part_file (fs w ds)))
            ++ artifact_lines (after F (sorted folder))) ∧
    console w' = console w ++
      [PrintSummary ds
         (R + Z.of_nat (length (artifact_lines (after F (sorted folder)))))
         bad dup cols].
Proof.
  intros Hraw Hload HF Hopen Hw Hread.
  rewrite (process_run py ds w folder Hraw Hopen), Hload. simpl.
  rewrite dataset_events_resume by done.
  destruct (for_files_ok ds (after F (sorted folder)) (init_state (fs w ds) w R))
    as (st & Hrun & Hgz & Hrows & _).
  { intros src [Hsrc Hlt]%list_elem_of_In%filter_In.
    apply Hread; [by apply elem_of_sorted, list_elem_of_In|done]. }
  { exact Hw. }
  rewrite Hrun.
  exists (finalize ds (fs w ds) w st), (bad_json st), (dup_seen st),
         (size (cols_seen st)).
  split; [done|]. simpl. unfold upd. rewrite String.eqb_refl. simpl.
  rewrite Hgz, Hrows. simpl. by destruct (R =? 0)%Z.
Qed.

End More.

(** ** The further properties at sample inputs *)

Local Ltac each_member H :=
  repeat (apply elem_of_cons in H as [->|H]); [..|by apply elem_of_nil in H].

Local Ltac sample_readable :=
  let line := fresh "line" in
  let Hl := fresh "Hl" in
  first [ exact I
        | (intros line Hl; simpl in Hl; each_member Hl; vm_compute; reflexivity)
        | (vm_compute; reflexivity) ].

Lemma reader_for_suffixes_witness :
  PyStr.dot_free "README" ∧ reader_for "README" = JsonReader.
Proof.
  assert (PyStr.dot_free "README") as H.
  { unfold PyStr.dot_free, PyStr.chars. simpl. intros Hin.
    repeat (apply elem_of_cons in Hin as [Hin|Hin]; [discriminate|]).
    by apply elem_of_nil in Hin. }
  split; [exact H|].
  by destruct (reader_for_suffixes "README") as (_ & _ & _ & Hfree); apply Hfree.
Defined.

Lemma first_run_writes_all_records_witness :
  raw (fs Sample.two_files_world "tracks") = Some Sample.two_files ∧
  (∀ src, src ∈ Sample.two_files → readable Sample.py src) ∧
  ∃ w', process Sample.py "tracks" Sample.two_files_world = Returned w' ∧
        final_file (fs w' "tracks")
          = Some (artifact_lines Sample.py (sorted Sample.two_files)).
Proof.
  assert (∀ src, src ∈ Sample.two_files → readable Sample.py src) as Hread.
  { intros src Hsrc. unfold Sample.two_files in Hsrc. each_member Hsrc.
    - change (∀ line, line ∈ [Sample.line_x1; Sample.line_bad1; Sample.line_y3] →
                      is_not_object Sample.py line = false).
      sample_readable.
    - change (csv_error (read_csv Sample.py ["a.x,b" +:+ Sample.nl; "1,2" +:+ Sample.nl])
              = false).
      sample_readable. }
  split; [reflexivity|]. split; [exact Hread|].
  destruct (first_run_writes_all_records Sample.py "tracks" Sample.two_files_world
              Sample.two_files eq_refl eq_refl eq_refl eq_refl Hread)
    as (w' & _ & _ & Hret & Hfin & _).
  by exists w'.
Defined.

Lemma resume_at_file_boundary_witness :
  load_ckpt (ckpt_file (fs Cases.at_boundary "tracks")) = (Some "a.json", 1%Z) ∧
  "a.json" ≠ "" ∧
  part_file (fs Cases.at_boundary "tracks")
    = Some (artifact_lines Sample.py (upto "a.json" (sorted Sample.repaired_folder))) ∧
  ∃ w', process Sample.py "tracks" Cases.at_boundary = Returned w' ∧
        final_file (fs w' "tracks")
          = Some (artifact_lines Sample.py (sorted Sample.repaired_folder)).
Proof.
  assert (∀ src, src ∈ Sample.repaired_folder →
                 String.ltb "a.json" (name src) = true →
                 readable Sample.py src) as Hread.
  { intros src Hsrc _. unfold Sample.repaired_folder in Hsrc. each_member Hsrc.
    - change (∀ line, line ∈ [Sample.line_y3; Sample.line_x2] →
                      is_not_object Sample.py line = false).
      sample_readable.
    - change (∀ line, line ∈ [Sample.line_x1] →
                      is_not_object Sample.py line = false).
      sample_readable. }
  assert ("a.json" ≠ "") as HF by discriminate.
  split; [reflexivity|]. split; [exact HF|]. split; [reflexivity|].
  destruct (resume_at_file_boundary_is_exact Sample.py "tracks" "a.json" 1
              Cases.at_boundary Sample.repaired_folder
              eq_refl eq_refl HF eq_refl eq_refl eq_refl eq_refl Hread)
    as (w' & _ & _ & _ & Hret & Hfin & _).
  by exists w'.
Defined.

Lemma resumed_run_appends_witness :
  load_ckpt (ckpt_file (fs Sample.second_run "tracks")) = (Some "a.json", 1%Z) ∧
  "a.json" ≠ "" ∧
  ∃ w', process Sample.py "tracks" Sample.second_run = Returned w' ∧
        final_file (fs w' "tracks")
          = Some (default [] (part_file (fs Sample.second_run "tracks"))
                  ++ artifact_lines Sample.py
                       (after "a.json" (sorted Sample.repaired_folder))).
Proof.
  assert (∀ src, src ∈ Sample.repaired_folder →
                 String.ltb "a.json" (name src) = true →
                 readable Sample.py src) as Hread.
  { intros src Hsrc _. unfold Sample.repaired_folder in Hsrc. each_member Hsrc.
    - change (∀ line, line ∈ [Sample.line_y3; Sample.line_x2] →
                      is_not_object Sample.py line = false).
      sample_readable.
    - change (∀ line, line ∈ [Sample.line_x1] →
                      is_not_object Sample.py line = false).
      sample_readable. }
  assert ("a.json" ≠ "") as HF by discriminate.
  split; [reflexivity|]. split; [exact HF|].
  destruct (resumed_run_appends_to_part_file Sample.py "tracks" "a.json" 1
              Sample.second_run Sample.repaired_folder
              eq_refl eq_refl HF eq_refl eq_refl Hread)
    as (w' & _ & _ & _ & Hret & Hfin & _).
  by exists w'.
Defined.

Lemma checkpoint_never_ahead_witness :
  write_limit (fs Sample.second_run "tracks") = None ∧
  ckpt_covered (fs Sample.second_run "tracks") ∧
  ckpt_covered (fs (world_of (process Sample.py "tracks" Sample.second_run))
                  "tracks").
Proof.
  assert (ckpt_covered (fs Sample.second_run "tracks")) as H.
  { intros n r Hn. vm_compute in Hn. injection Hn as <- <-.
    eexists. split; [vm_compute; reflexivity|]. simpl. lia. }
  split; [reflexivity|]. split; [exact H|].
  exact (checkpoint_never_ahead_of_part_file Sample.py "tracks"
           Sample.second_run eq_refl H).
Defined.

Lemma run_all_isolates_datasets_witness :
  (∀ d, d ∈ datasets →
        part_openable (fs Sample.two_files_world d) = true ∧
        write_limit (fs Sample.two_files_world d) = None) ∧
  ∃ w', run_all Sample.py Sample.two_files_world = Returned w' ∧
        fs w' "tracks"
          = fs (world_of (process Sample.py "tracks" Sample.two_files_world))
               "tracks".
Proof.
  assert (∀ d, d ∈ datasets →
               part_openable (fs Sample.two_files_world d) = true ∧
               write_limit (fs Sample.two_files_world d) = None)
    as Hopen.
  { intros d Hd. unfold datasets in Hd. each_member Hd; split; reflexivity. }
  split; [exact Hopen|].
  destruct (run_all_isolates_datasets Sample.py Sample.two_files_world Hopen)
    as (w' & Hret & Hin & _).
  exists w'. split; [exact Hret|]. apply Hin. unfold datasets.
  rewrite !elem_of_cons. auto.
Defined.

Lemma duplicate_flag_iff_witness :
  dup_seen Sample.fresh = false ∧ hashes Sample.fresh = ∅ ∧
  (dup_seen Sample.after_duplicate = true ↔
   ¬ NoDup (row_hash Sample.py <$> [Sample.rec_ab; Sample.rec_c; Sample.rec_ba])).
Proof.
  assert (for_events Sample.py "tracks"
            [EYield Sample.rec_ab; EYield Sample.rec_c; EYield Sample.rec_ba]
            Sample.fresh
          = Ok Sample.after_duplicate) as Hrun by (vm_compute; reflexivity).
  split; [reflexivity|]. split; [reflexivity|].
  by destruct (duplicate_flag_iff_digest_repeats Sample.py "tracks" _ _ _
                 Hrun eq_refl eq_refl) as (Hiff & _).
Defined.

Lemma json_non_object_line_witness :
  reader_for (name Cases.with_list_line) = JsonReader ∧
  is_not_object Sample.py Sample.line_list = true ∧
  ∃ st', for_events Sample.py "tracks"
           (file_events Sample.py None Cases.with_list_line) Sample.fresh
         = Exc AttributeError st' ∧
         length (gz st') = 1 ∧ ckpt st' = None.
Proof.
  assert (∀ l, l ∈ [Sample.line_y3] → is_not_object Sample.py l = false) as Hpre
    by sample_readable.
  split; [reflexivity|]. split; [reflexivity|].
  destruct (json_non_object_line_stops_the_run Sample.py "tracks" None
              Cases.with_list_line [Sample.line_y3] [Sample.line_x2]
              Sample.line_list Sample.fresh
              eq_refl eq_refl eq_refl Hpre eq_refl eq_refl)
    as (st' & Hrun & Hgz & _ & _ & Hck).
  exists st'. split; [exact Hrun|]. split; [by rewrite Hgz|exact Hck].
Defined.

Lemma csv_parser_error_witness :
  reader_for (name Cases.with_long_row) = CsvReader ∧
  csv_error (read_csv Sample.py (lines Cases.with_long_row)) = true ∧
  ∃ st', for_events Sample.py "tracks"
           (file_events Sample.py None Cases.with_long_row) Sample.fresh
         = Exc ParserError st' ∧ ckpt st' = None.
Proof.
  split; [reflexivity|]. split; [reflexivity|].
  destruct (csv_parser_error_stops_the_run Sample.py "tracks" None
              Cases.with_long_row Sample.fresh eq_refl eq_refl eq_refl eq_refl)
    as (st' & Hrun & _ & _ & _ & Hck).
  by exists st'.
Defined.

Lemma resumed_run_statistics_witness :
  "a.json" ≠ "" ∧
  (∀ c, c ∈ cols_seen Cases.resumed_state ↔
        ∃ src d k, src ∈ Sample.repaired_folder ∧
                   String.ltb "a.json" (name src) = true ∧
                   d ∈ parsed Sample.py src ∧ k ∈ keys d ∧ c = norm_key k).
Proof.
  assert (for_events Sample.py "tracks"
            (dataset_events Sample.py (Some "a.json") Sample.repaired_folder)
            (init_state (fs Cases.at_boundary "tracks") Cases.at_boundary 1)
          = Ok Cases.resumed_state) as Hrun by (vm_compute; reflexivity).
  assert ("a.json" ≠ "") as HF by discriminate.
  split; [exact HF|].
  by destruct (resumed_run_statistics_cover_new_files_only Sample.py "tracks"
                 "a.json" 1 Cases.at_boundary Sample.repaired_folder
                 Cases.resumed_state HF Hrun) as (Hcols & _).
Defined.

Local Ltac no_line_end :=
  split; unfold PyStr.chars; simpl; intros Hin;
  repeat (apply elem_of_cons in Hin as [Hin|Hin]; [discriminate|]);
  by apply elem_of_nil in Hin.

Lemma ckpt_text_round_trip_witness :
  CkptText.one_line "a.json" ∧
  CkptText.load_ckpt_text (Some (CkptText.save_ckpt_text "a.json" 1200))
    = Some (Some "a.json", 1200%Z).
Proof.
  assert (CkptText.one_line "a.json") as H by no_line_end.
  split; [exact H|].
  by destruct (ckpt_text_round_trip "a.json" 1200 H) as [-> _].
Defined.

Lemma ckpt_without_row_count_witness :
  CkptText.one_line "a.json" ∧
  CkptText.load_ckpt_text (Some "a.json") = Some (Some "a.json", 0%Z).
Proof.
  assert (CkptText.one_line "a.json") as H by no_line_end.
  split; [exact H|].
  by destruct (ckpt_without_row_count_reads_zero "a.json" H) as [-> _].
Defined.

Lemma ckpt_with_bad_row_count_witness :
  CkptText.one_line "a.json" ∧ CkptText.one_line "x1" ∧
  CkptText.int_char "x" = false ∧
  CkptText.load_ckpt_text
    (Some ("a.json" +:+ String "010" ("x1" +:+ String "010" EmptyString)))
  = None.
Proof.
  assert (CkptText.one_line "a.json") as H1 by no_line_end.
  assert (CkptText.one_line "x1") as H2 by no_line_end.
  assert ("x"%char ∈ PyStr.chars (PyStr.strip "x1")) as Hc by (vm_compute; left).
  split; [exact H1|]. split; [exact H2|]. split; [reflexivity|].
  exact (ckpt_with_bad_row_count_raises "a.json" "x1" "x" H1 H2 Hc eq_refl).
Defined.
